(** * TorchScript RPC entry points: [rpcTorchscript] and [remoteTorchscript]

    A shallow embedding of
    [torch/csrc/distributed/rpc/torchscript_functions.cpp].

    The two C++ functions are sequences of calls into collaborators (the RPC
    agent, the RRef context, the profiler, the futures returned by the
    transport).  The embedding threads one [World] value through these calls
    and records every collaborator call in a log, so that both the final state
    and the order of the calls can be stated. *)

From Stdlib Require Import ZArith QArith List Lia.
From stdpp Require Import base strings list gmap.

Local Open Scope Z_scope.

(** ** Identifiers and plain data *)

Definition worker_id_t := Z.
Definition local_id_t := Z.

(** [WorkerInfo]: the resolved pair of a worker name and its numeric id. *)
Record WorkerInfo := { name_ : string; id_ : worker_id_t }.

(** [GloballyUniqueId]: the worker that created the id and a per-worker
    counter.  [RRefId] and [ForkId] are both [GloballyUniqueId] in the RPC
    layer. *)
Record GloballyUniqueId := { createdOn_ : worker_id_t; localId_ : local_id_t }.

#[global] Instance GloballyUniqueId_eq_dec : EqDecision GloballyUniqueId.
Proof. solve_decision. Defined.

#[global] Instance GloballyUniqueId_countable : Countable GloballyUniqueId.
Proof.
  refine (inj_countable'
            (fun g => (createdOn_ g, localId_ g))
            (fun p => {| createdOn_ := fst p; localId_ := snd p |}) _).
  intros [c l]; reflexivity.
Defined.

Abbreviation RRefId := GloballyUniqueId (only parsing).
Abbreviation ForkId := GloballyUniqueId (only parsing).

Inductive TypePtr :=
| TensorType | IntType | BoolType | StringType | NoneType
| ClassType (qualname : string).

Record Argument := { arg_name : string; arg_type : TypePtr }.

Record FunctionSchema := {
  schema_name : string;
  arguments : list Argument;
  returns : list Argument
}.

Definition QualifiedName := string.

(** [at::Tensor], as far as this file uses it: the dummy [at::zeros(1)] and
    the tensor in which [record_function_enter] wraps an
    [at::RecordFunction]. *)
Inductive Tensor :=
| zeros (n : nat)
| RecordFunctionTensor (span : nat).

Inductive MessageType :=
| SCRIPT_CALL | SCRIPT_REMOTE_CALL | SCRIPT_RET | REMOTE_RET | EXCEPTION.

Record Message := {
  payload_ : list Byte.byte;
  tensors_ : list Tensor;
  type_ : MessageType
}.

Inductive IValue :=
| IVNone
| IVBool (b : bool)
| IVInt (z : Z)
| IVString (s : string)
| IVTensor (t : Tensor)
| IVMessage (m : Message). (* custom class holder of an rpc::Message *)

Definition DataPtr := nat.

Inductive exception_ptr :=
| RpcTimeout
| RpcRuntimeError (what : string).

(** The two call descriptors.  [ScriptRemoteCall] extends [ScriptCall] with
    the ids of the RRef being created. *)
Record ScriptCall := {
  qualifiedName_ : QualifiedName;
  stack_ : list IValue;
  isAsyncExecution_ : bool
}.

Record ScriptRemoteCall := {
  call_ : ScriptCall;
  retRRefId_ : RRefId;
  retForkId_ : ForkId
}.

(** ** Futures *)

Definition FutureId := nat.

(** The two kinds of handle a closure can hold on a future. *)
Record IntrusivePtr := { ip_target : FutureId }.  (* owning *)
Record WeakPtr := { wp_target : FutureId }.       (* weak_ptr, non-owning *)

Inductive Settlement :=
| Value (v : IValue) (dataPtrs : list DataPtr)
| Error (e : exception_ptr).

Inductive FutureState :=
| Pending
| Settled (s : Settlement).

(** The closures passed to [addCallback], one constructor per lambda, with
    the captured variables as arguments. *)
Inductive Callback :=
| RpcCallback (futPtr : IntrusivePtr) (wp : WeakPtr)
    (* rpcTorchscript: [futPtr, wp] *)
| ConfirmUserCallback (wp : WeakPtr) (forkId : ForkId)
    (* remoteTorchscript, user branch: [wp, forkId] *)
| FinishOwnerCallback (wp : WeakPtr) (ownerRRefId : RRefId)
    (* remoteTorchscript, owner branch: [wp, ownerRRefId] *)
| ProfilingEndCallback (handle : Tensor) (profiledFutPtr : IntrusivePtr).
    (* installed by _call_end_callbacks_on_fut *)

Definition strong_captures (cb : Callback) : list FutureId :=
  match cb with
  | RpcCallback futPtr _ => [ip_target futPtr]
  | ConfirmUserCallback _ _ => []
  | FinishOwnerCallback _ _ => []
  | ProfilingEndCallback _ p => [ip_target p]
  end.

Definition weak_captures (cb : Callback) : list FutureId :=
  match cb with
  | RpcCallback _ wp => [wp_target wp]
  | ConfirmUserCallback wp _ => [wp_target wp]
  | FinishOwnerCallback wp _ => [wp_target wp]
  | ProfilingEndCallback _ _ => []
  end.

Record JitFuture := {
  elementType_ : TypePtr;
  state_ : FutureState;
  callbacks_ : list Callback
}.

(** ** References *)

Definition RRefPtr := nat.

Inductive RRef :=
| UserRRef (ownerId : worker_id_t) (rrefId : RRefId) (forkId : ForkId)
           (type : TypePtr) (ownerCreationFuture : option FutureId)
| OwnerRRef (ownerId : worker_id_t) (rrefId : RRefId)
            (type : TypePtr) (value : FutureState)
            (ownerCreationFuture : option FutureId).

Definition rrefId (r : RRef) : RRefId :=
  match r with
  | UserRRef _ i _ _ _ => i
  | OwnerRRef _ i _ _ _ => i
  end.

(** [UserRRef::forkId()]; an owner has no fork id. *)
Definition forkId (r : RRef) : option ForkId :=
  match r with
  | UserRRef _ _ f _ _ => Some f
  | OwnerRRef _ _ _ _ _ => None
  end.

Definition owner (r : RRef) : worker_id_t :=
  match r with
  | UserRRef o _ _ _ _ => o
  | OwnerRRef o _ _ _ _ => o
  end.

Definition rrefType (r : RRef) : TypePtr :=
  match r with
  | UserRRef _ _ _ t _ => t
  | OwnerRRef _ _ t _ _ => t
  end.

Definition isOwner (r : RRef) : bool :=
  match r with
  | UserRRef _ _ _ _ _ => false
  | OwnerRRef _ _ _ _ _ => true
  end.

Definition creationFuture (r : RRef) : option FutureId :=
  match r with
  | UserRRef _ _ _ _ f => f
  | OwnerRRef _ _ _ _ f => f
  end.

(** ** The log of collaborator calls *)

Inductive Event :=
| EvRecordFunctionEnter (key : string) (span : nat)
| EvSetCurrentKey (key : string)
| EvRecordFunctionExit (span : nat)
| EvCreateUserRRef (p : RRefPtr) (rid : RRefId) (fid : ForkId)
| EvCreateOwnerRRef (p : RRefPtr) (rid : RRefId)
| EvAddSelfAsFork (rid : RRefId)
| EvSend (dst : WorkerInfo) (m : Message) (forceGradRecording : bool)
         (timeout : Q) (fut : FutureId)
| EvRegisterOwnerCreationFuture (p : RRefPtr) (fut : FutureId)
| EvAddPendingUser (fid : ForkId) (p : RRefPtr)
| EvAddCallback (fut : FutureId) (cb : Callback)
| EvConfirmPendingUser (fid : ForkId) (ok : bool)
| EvFinishCreatingOwnerRRef (rid : RRefId) (ok : bool).

(** ** The world *)

Record RpcAgent := {
  workerInfo_ : WorkerInfo;            (* this process *)
  allWorkerInfo_ : list WorkerInfo     (* the name -> id table *)
}.

Record Profiler := {
  profilerEnabled_ : bool;
  currentKey_ : option string;         (* RemoteProfilerManager's current key *)
  activeSpans_ : gmap nat string;      (* spans entered and not exited *)
  nextSpan_ : nat
}.

Record RRefContext := {
  nextLocalId_ : local_id_t;
  pendingUsers_ : gmap GloballyUniqueId RRefPtr;
  confirmedUsers_ : gset GloballyUniqueId;
  owners_ : gmap GloballyUniqueId RRefPtr;
  forks_ : gmap GloballyUniqueId (gset GloballyUniqueId)
}.

Record World := {
  agent : RpcAgent;
  profiler : Profiler;
  ctx : RRefContext;
  futures : gmap nat JitFuture;
  nextFuture : FutureId;
  rrefs : gmap nat RRef;
  nextRRef : RRefPtr;
  trace : list Event                   (* newest event first *)
}.

Definition set_profiler (p : Profiler) (w : World) : World :=
  {| agent := agent w; profiler := p; ctx := ctx w; futures := futures w;
     nextFuture := nextFuture w; rrefs := rrefs w; nextRRef := nextRRef w;
     trace := trace w |}.

Definition set_ctx (c : RRefContext) (w : World) : World :=
  {| agent := agent w; profiler := profiler w; ctx := c; futures := futures w;
     nextFuture := nextFuture w; rrefs := rrefs w; nextRRef := nextRRef w;
     trace := trace w |}.

Definition set_futures (m : gmap nat JitFuture) (n : FutureId) (w : World)
  : World :=
  {| agent := agent w; profiler := profiler w; ctx := ctx w; futures := m;
     nextFuture := n; rrefs := rrefs w; nextRRef := nextRRef w;
     trace := trace w |}.

Definition set_rrefs (m : gmap nat RRef) (n : RRefPtr) (w : World) : World :=
  {| agent := agent w; profiler := profiler w; ctx := ctx w;
     futures := futures w; nextFuture := nextFuture w; rrefs := m;
     nextRRef := n; trace := trace w |}.

Definition log (e : Event) (w : World) : World :=
  {| agent := agent w; profiler := profiler w; ctx := ctx w;
     futures := futures w; nextFuture := nextFuture w; rrefs := rrefs w;
     nextRRef := nextRRef w; trace := e :: trace w |}.

(** The log in the order in which the calls were made. *)
Definition history (w : World) : list Event := rev (trace w).

(** ** Exceptions and the state-and-exception monad

    A C++ exception leaves every effect made before the throw in place, so a
    computation returns the world together with its result or its exception. *)

Inductive Exception :=
| UnknownWorker (name : string)
| SchemaMismatch (arity : nat)   (* the assertion returns.size() == 1 *)
| NullPointerDereference         (* use of an empty handle *)
| FutureNotCompleted             (* constValue() on a pending future *)
| AlreadySettled                 (* second markCompleted / setError *)
| NotAMessage                    (* toCustomClass<Message>() on another value *)
| DecodeError (what : string)
| OutOfFuel.                     (* bound on nested callback runs exhausted *)

Inductive Res (A : Type) :=
| Ok (a : A)
| Throw (e : Exception).
Arguments Ok {A} a.
Arguments Throw {A} e.

Definition M (A : Type) : Type := World -> Res A * World.

Definition ret {A} (a : A) : M A := fun w => (Ok a, w).
Definition throw {A} (e : Exception) : M A := fun w => (Throw e, w).
Definition bind {A B} (c : M A) (k : A -> M B) : M B :=
  fun w => match c w with
           | (Ok a, w') => k a w'
           | (Throw e, w') => (Throw e, w')
           end.
Definition gets {A} (f : World -> A) : M A := fun w => (Ok (f w), w).
Definition modify (f : World -> World) : M unit := fun w => (Ok tt, f w).
Definition lift {A} (r : Res A) : M A := fun w => (r, w).

Notation "'let*' x ':=' c 'in' k" := (bind c (fun x => k))
  (at level 10, x name, c at level 100, k at level 200).
Notation "c1 ';;;' c2" := (bind c1 (fun _ => c2))
  (at level 100, c2 at level 200, right associativity).

(** ** Collaborators

    None of the functions below is defined in [torchscript_functions.cpp];
    each is modelled from the interface the specification gives for it. *)

(** Modelled from the spec: the agent's table of workers, searched by
    name. *)
Definition findWorker (name : string) (a : RpcAgent) : option WorkerInfo :=
  List.find (fun i => bool_decide (name_ i = name)) (allWorkerInfo_ a).

(** Modelled from the spec: [RpcAgent::getWorkerInfo(name)], the worker
    resolution [resolve(name) -> WorkerIdentity | UnknownWorker]. *)
Definition getWorkerInfo (name : string) : M WorkerInfo :=
  fun w =>
    match findWorker name (agent w) with
    | Some i => (Ok i, w)
    | None => (Throw (UnknownWorker name), w)
    end.

(** Modelled from the spec: [currentIdentity()], the no-argument
    [getWorkerInfo()] of the agent. *)
Definition getCurrentWorkerInfo : M WorkerInfo :=
  gets (fun w => workerInfo_ (agent w)).

(** Modelled from the spec: [RRefContext::getWorkerId()], the id of the
    current process. *)
Definition getWorkerId : M worker_id_t :=
  gets (fun w => id_ (workerInfo_ (agent w))).

(** Modelled from the spec: [profilerEnabled()], the profiler switch. *)
Definition profilerEnabled : M bool :=
  gets (fun w => profilerEnabled_ (profiler w)).

Definition currentKeySet (p : Profiler) : bool :=
  match currentKey_ p with
  | Some _ => true
  | None => false
  end.

(** Modelled from the spec: [RemoteProfilerManager::isCurrentKeySet()]. *)
Definition isCurrentKeySet : M bool :=
  gets (fun w => currentKeySet (profiler w)).

(** Modelled from the spec: the remote profiler manager records the key of
    the span that was opened. *)
Definition setCurrentKey (key : string) : M unit :=
  modify (fun w =>
    log (EvSetCurrentKey key)
        (set_profiler
           {| profilerEnabled_ := profilerEnabled_ (profiler w);
              currentKey_ := Some key;
              activeSpans_ := activeSpans_ (profiler w);
              nextSpan_ := nextSpan_ (profiler w) |} w)).

(** Modelled from the spec: [openSpan(key) -> SpanHandle]; the handle is
    returned inside a tensor. *)
Definition record_function_enter (key : string) : M Tensor :=
  fun w =>
    let s := nextSpan_ (profiler w) in
    (Ok (RecordFunctionTensor s),
     log (EvRecordFunctionEnter key s)
         (set_profiler
            {| profilerEnabled_ := profilerEnabled_ (profiler w);
               currentKey_ := currentKey_ (profiler w);
               activeSpans_ := <[s := key]> (activeSpans_ (profiler w));
               nextSpan_ := S s |} w)).

(** Modelled from the spec: [closeSpan(handle)]; the dummy tensor holds no
    span and closing it does nothing. *)
Definition record_function_exit (handle : Tensor) : M unit :=
  match handle with
  | RecordFunctionTensor s =>
      modify (fun w =>
        log (EvRecordFunctionExit s)
            (set_profiler
               {| profilerEnabled_ := profilerEnabled_ (profiler w);
                  currentKey_ := currentKey_ (profiler w);
                  activeSpans_ := delete s (activeSpans_ (profiler w));
                  nextSpan_ := nextSpan_ (profiler w) |} w))
  | zeros _ => ret tt
  end.

(** Modelled from the spec: the span is closed on every exit path, exactly
    once.  This is the end of the last holder of a handle: the
    [at::RecordFunction] that the tensor owns is destroyed with it, which
    ends the span unless the span has been exited already. *)
Definition releaseHandle (handle : Tensor) : M unit :=
  match handle with
  | RecordFunctionTensor s =>
      let* open := gets (fun w => activeSpans_ (profiler w) !! s) in
      match open with
      | Some _ => record_function_exit handle
      | None => ret tt
      end
  | zeros _ => ret tt
  end.

(** The scope of an automatic variable: when [body] throws, the stack is
    unwound, the variable is destroyed ([cleanup]) and the exception goes
    on.  (On a normal return the variable is destroyed as well; that is
    the business of what [body] returns, which may hold a copy.) *)
Definition unwinding {A} (cleanup : M unit) (body : M A) : M A :=
  fun w => match body w with
           | (Ok a, w') => (Ok a, w')
           | (Throw e, w') => (Throw e, snd (cleanup w'))
           end.

(** Modelled from the spec: a fresh identifier, made of the id of the
    current process and the next value of its counter. *)
Definition genGloballyUniqueId : M GloballyUniqueId :=
  fun w =>
    let c := ctx w in
    (Ok {| createdOn_ := id_ (workerInfo_ (agent w));
           localId_ := nextLocalId_ c |},
     set_ctx {| nextLocalId_ := nextLocalId_ c + 1;
                pendingUsers_ := pendingUsers_ c;
                confirmedUsers_ := confirmedUsers_ c;
                owners_ := owners_ c;
                forks_ := forks_ c |} w).

(** Allocation of a reference object; the handle is its address. *)
Definition newRRef (r : RRef) : M RRefPtr :=
  fun w =>
    let p := nextRRef w in
    (Ok p, set_rrefs (<[p := r]> (rrefs w)) (S p) w).

(** Reading through a reference handle. *)
Definition derefRRef (p : RRefPtr) : M RRef :=
  fun w => match rrefs w !! p with
           | Some r => (Ok r, w)
           | None => (Throw NullPointerDereference, w)
           end.

(** Modelled from the spec: [createUserReference(ownerId, type)], a User
    reference with a fresh reference id and a fresh fork id. *)
Definition createUserRRef (ownerId : worker_id_t) (type : TypePtr)
  : M RRefPtr :=
  let* rid := genGloballyUniqueId in
  let* fid := genGloballyUniqueId in
  let* p := newRRef (UserRRef ownerId rid fid type None) in
  modify (log (EvCreateUserRRef p rid fid)) ;;;
  ret p.

(** Modelled from the spec: [createOwnerReference(type)], an Owner reference
    with a fresh reference id and no fork id. *)
Definition createOwnerRRef (type : TypePtr) : M RRefPtr :=
  let* self := getWorkerId in
  let* rid := genGloballyUniqueId in
  let* p := newRRef (OwnerRRef self rid type Pending None) in
  modify (log (EvCreateOwnerRRef p rid)) ;;;
  ret p.

(** Modelled from the spec: [addSelfFork(ref)], the owner recorded in the
    registry with its own id as one of its forks. *)
Definition addSelfAsFork (p : RRefPtr) : M unit :=
  let* r := derefRRef p in
  modify (fun w =>
    let c := ctx w in
    let rid := rrefId r in
    log (EvAddSelfAsFork rid)
        (set_ctx {| nextLocalId_ := nextLocalId_ c;
                    pendingUsers_ := pendingUsers_ c;
                    confirmedUsers_ := confirmedUsers_ c;
                    owners_ := <[rid := p]> (owners_ c);
                    forks_ := <[rid := {[rid]} ∪ default ∅ (forks_ c !! rid)]>
                                (forks_ c) |} w)).

(** Modelled from the spec: [addPendingFork(forkId, ref)]. *)
Definition addPendingUser (fid : ForkId) (p : RRefPtr) : M unit :=
  modify (fun w =>
    let c := ctx w in
    log (EvAddPendingUser fid p)
        (set_ctx {| nextLocalId_ := nextLocalId_ c;
                    pendingUsers_ := <[fid := p]> (pendingUsers_ c);
                    confirmedUsers_ := confirmedUsers_ c;
                    owners_ := owners_ c;
                    forks_ := forks_ c |} w)).

(** Modelled from the spec: [confirmFork(forkId)], pending to confirmed; a
    fork that is not pending is left alone. *)
Definition confirmFork (fid : ForkId) : M unit :=
  modify (fun w =>
    let c := ctx w in
    match pendingUsers_ c !! fid with
    | Some _ =>
        set_ctx {| nextLocalId_ := nextLocalId_ c;
                   pendingUsers_ := delete fid (pendingUsers_ c);
                   confirmedUsers_ := {[fid]} ∪ confirmedUsers_ c;
                   owners_ := owners_ c;
                   forks_ := forks_ c |} w
    | None => w
    end).

(** Modelled from the spec: [releaseFork(forkId)]. *)
Definition releaseFork (fid : ForkId) : M unit :=
  modify (fun w =>
    let c := ctx w in
    set_ctx {| nextLocalId_ := nextLocalId_ c;
               pendingUsers_ := delete fid (pendingUsers_ c);
               confirmedUsers_ := confirmedUsers_ c;
               owners_ := owners_ c;
               forks_ := forks_ c |} w).

(** Modelled from the spec: the reference remembers the transport future of
    the call that creates its owner. *)
Definition registerOwnerCreationFuture (p : RRefPtr) (fut : FutureId)
  : M unit :=
  let* r := derefRRef p in
  modify (fun w =>
    let r' := match r with
              | UserRRef o i f t _ => UserRRef o i f t (Some fut)
              | OwnerRRef o i t v _ => OwnerRRef o i t v (Some fut)
              end in
    log (EvRegisterOwnerCreationFuture p fut)
        (set_rrefs (<[p := r']> (rrefs w)) (nextRRef w) w)).

(** Modelled from the spec: [finalizeOwner(refId, value|error)]. *)
Definition finalizeOwner (rid : RRefId) (s : Settlement) : M unit :=
  modify (fun w =>
    match owners_ (ctx w) !! rid with
    | Some p =>
        match rrefs w !! p with
        | Some (OwnerRRef o i t _ f) =>
            set_rrefs (<[p := OwnerRRef o i t (Settled s) f]> (rrefs w))
                      (nextRRef w) w
        | _ => w
        end
    | None => w
    end).

(** Allocation of a future; the handle is its address. *)
Definition newFuture (f : JitFuture) : M FutureId :=
  fun w =>
    let a := nextFuture w in
    (Ok a, set_futures (<[a := f]> (futures w)) (S a) w).

(** Reading through an owning handle on a future. *)
Definition derefFuture (a : FutureId) : M JitFuture :=
  fun w => match futures w !! a with
           | Some f => (Ok f, w)
           | None => (Throw NullPointerDereference, w)
           end.

(** [wp.lock()]: the future if it is still alive. *)
Definition lock (wp : WeakPtr) : M (option JitFuture) :=
  gets (fun w => futures w !! wp_target wp).

(** The end of a future's life: its cell leaves the store. *)
Definition destroyFuture (a : FutureId) (w : World) : World :=
  set_futures (delete a (futures w)) (nextFuture w) w.

(** Modelled from the spec: [createTyped<T>(type)], a new pending future of
    the given element type. *)
Definition createInstance (fut : FutureId) (type : TypePtr) : M FutureId :=
  derefFuture fut ;;;
  newFuture {| elementType_ := type; state_ := Pending; callbacks_ := [] |}.

(** [toCustomClass<Message>()]. *)
Definition toCustomClassMessage (v : IValue) : M Message :=
  match v with
  | IVMessage m => ret m
  | _ => throw NotAMessage
  end.

Section TorchscriptFunctions.

(** Serialization and the transport are outside this file; they are taken
    as given. *)
Variable ScriptCall_toMessage : ScriptCall -> Message.
Variable ScriptRemoteCall_toMessage : ScriptRemoteCall -> Message.
Variable deserializeRespToIValue : Message -> Res IValue.
(** The state in which the caller finds the future that the transport
    returns for a message: [Pending] while the call is in flight, settled
    when the transport has already answered or failed. *)
Variable agent_send : WorkerInfo -> Message -> FutureState.
(** The ambient context of a send.  The transport is handed the current
    profiling key along with the message and decides what is left of it: a
    transport that attaches the key to the message consumes it, another
    leaves it in place. *)
Variable agent_context : option string -> option string.

(** Modelled from the spec: [send(destination, descriptor, ambientContext,
    timeout) -> Future<OpaqueResponse>]; the ambient context rides along
    with the send and is not interpreted here. *)
Definition sendMessageWithAutograd (dst : WorkerInfo) (msg : Message)
    (forceGradRecording : bool) (rpcTimeoutSeconds : Q) : M FutureId :=
  let* a := newFuture {| elementType_ := ClassType "Message";
                         state_ := agent_send dst msg;
                         callbacks_ := [] |} in
  modify (log (EvSend dst msg forceGradRecording rpcTimeoutSeconds a)) ;;;
  modify (fun w =>
    set_profiler
      {| profilerEnabled_ := profilerEnabled_ (profiler w);
         currentKey_ := agent_context (currentKey_ (profiler w));
         activeSpans_ := activeSpans_ (profiler w);
         nextSpan_ := nextSpan_ (profiler w) |} w) ;;;
  ret a.

(** Modelled from the spec: [decode(OpaqueResponse) -> TypedValue |
    DecodeError] on the settlement of a transport future.  The settlement
    is a success when it carries a message that decodes; an error, a value
    that is no message and a message that does not decode are failures. *)
Definition decodedAnswer (s : Settlement) : option IValue :=
  match s with
  | Value (IVMessage m) _ =>
      match deserializeRespToIValue m with
      | Ok v => Some v
      | Throw _ => None
      end
  | Value _ _ => None
  | Error _ => None
  end.

(** Modelled from the spec: the fork-confirmation handler; on success the
    fork goes from pending to confirmed, on every failure, transport
    failure and decode failure alike, it is released. *)
Definition confirmPendingUser (jitFuture : JitFuture) (expectedForkId : ForkId)
  : M unit :=
  match state_ jitFuture with
  | Settled s =>
      match decodedAnswer s with
      | Some _ =>
          modify (log (EvConfirmPendingUser expectedForkId true)) ;;;
          confirmFork expectedForkId
      | None =>
          modify (log (EvConfirmPendingUser expectedForkId false)) ;;;
          releaseFork expectedForkId
      end
  | Pending => throw FutureNotCompleted
  end.

(** Modelled from the spec: the owner-finalizing handler; on success the
    owner is marked ready with the deserialized value, on failure it is
    marked failed. *)
Definition finishCreatingOwnerRRef (jitFuture : JitFuture) (rid : RRefId)
  : M unit :=
  match state_ jitFuture with
  | Settled (Error e) =>
      modify (log (EvFinishCreatingOwnerRRef rid false)) ;;;
      finalizeOwner rid (Error e)
  | Settled (Value (IVMessage m) ptrs) =>
      match deserializeRespToIValue m with
      | Ok v =>
          modify (log (EvFinishCreatingOwnerRRef rid true)) ;;;
          finalizeOwner rid (Value v ptrs)
      | Throw _ =>
          modify (log (EvFinishCreatingOwnerRRef rid false)) ;;;
          finalizeOwner rid (Error (RpcRuntimeError "DecodeError"))
      end
  | Settled (Value _ _) =>
      modify (log (EvFinishCreatingOwnerRRef rid false)) ;;;
      finalizeOwner rid (Error (RpcRuntimeError "DecodeError"))
  | Pending => throw FutureNotCompleted
  end.

(** What each closure does when its future runs it.  [settle] is the
    operation that settles another future; [self] is the future the closure
    is attached to.  [at::wrapPropagateTLSState] only carries the
    thread-local state of the registering thread over to the running thread
    and does not change what the closure does. *)
Definition run_callback (settle : FutureId -> Settlement -> M unit)
    (self : FutureId) (cb : Callback) : M unit :=
  match cb with
  | RpcCallback futPtr wp =>
      let* future := lock wp in
      match future with
      | None => throw NullPointerDereference   (* future->hasError() *)
      | Some future =>
          match state_ future with
          | Settled (Error e) =>
              (* futPtr->setError(future->exception_ptr()) *)
              settle (ip_target futPtr) (Error e)
          | Settled (Value v ptrs) =>
              (* futPtr->markCompleted(deserializeRespToIValue(...),
                                       future->dataPtrs()) *)
              let* m := toCustomClassMessage v in
              let* r := lift (deserializeRespToIValue m) in
              settle (ip_target futPtr) (Value r ptrs)
          | Pending => throw FutureNotCompleted   (* constValue() *)
          end
      end
  | ConfirmUserCallback wp fid =>
      let* future := lock wp in
      match future with
      | None => throw NullPointerDereference   (* *wp.lock() *)
      | Some future => confirmPendingUser future fid
      end
  | FinishOwnerCallback wp rid =>
      let* future := lock wp in
      match future with
      | None => throw NullPointerDereference   (* *wp.lock() *)
      | Some future => finishCreatingOwnerRRef future rid
      end
  | ProfilingEndCallback handle p =>
      let* me := derefFuture self in
      record_function_exit handle ;;;
      match state_ me with
      | Settled s => settle (ip_target p) s
      | Pending => throw FutureNotCompleted
      end
  end.

Fixpoint run_callbacks (run : Callback -> M unit) (cbs : list Callback)
  : M unit :=
  match cbs with
  | [] => ret tt
  | cb :: rest => run cb ;;; run_callbacks run rest
  end.

(** Modelled from the spec: settling a future.  The value or error is set
    once, a second settlement is [AlreadySettled]; the registered callbacks
    then run, each once, in registration order.  A callback may settle a
    further future; [fuel] bounds how deep that nesting goes. *)
Fixpoint settle (fuel : nat) (a : FutureId) (s : Settlement) : M unit :=
  match fuel with
  | O => throw OutOfFuel
  | S fuel' =>
      let* f := derefFuture a in
      match state_ f with
      | Pending =>
          modify (fun w =>
            set_futures (<[a := {| elementType_ := elementType_ f;
                                   state_ := Settled s;
                                   callbacks_ := [] |}]> (futures w))
                        (nextFuture w) w) ;;;
          run_callbacks (run_callback (settle fuel') a) (callbacks_ f)
      | Settled _ => throw AlreadySettled
      end
  end.

(** [markCompleted] and [setError] are the two ways to settle. *)
Definition markCompleted (fuel : nat) (a : FutureId) (v : IValue)
    (dataPtrs : list DataPtr) : M unit :=
  settle fuel a (Value v dataPtrs).

Definition setError (fuel : nat) (a : FutureId) (e : exception_ptr)
  : M unit :=
  settle fuel a (Error e).

(** Modelled from the spec: [addCallback(fn)] registers [fn] to run on
    settlement, or runs it at once if the future is already settled. *)
Definition addCallback (fuel : nat) (a : FutureId) (cb : Callback)
  : M unit :=
  let* f := derefFuture a in
  modify (log (EvAddCallback a cb)) ;;;
  match state_ f with
  | Pending =>
      modify (fun w =>
        set_futures (<[a := {| elementType_ := elementType_ f;
                               state_ := Pending;
                               callbacks_ := callbacks_ f ++ [cb] |}]>
                       (futures w))
                    (nextFuture w) w)
  | Settled _ => run_callback (settle fuel) a cb
  end.

(** Modelled from the spec: the instrumentation wrapper; it returns a new
    future and arranges that, when [fut] settles, the span held by [handle]
    is closed and the new future settles as [fut] did. *)
Definition _call_end_callbacks_on_fut (fuel : nat) (handle : Tensor)
    (fut : FutureId) : M FutureId :=
  let* f := derefFuture fut in
  let* p := newFuture {| elementType_ := elementType_ f;
                         state_ := Pending;
                         callbacks_ := [] |} in
  addCallback fuel fut (ProfilingEndCallback handle {| ip_target := p |}) ;;;
  ret p.

(** [TORCH_INTERNAL_ASSERT(returns.size() == 1, ...)] followed by
    [returns.at(0).type()]. *)
Definition singleReturnType (functionSchema : FunctionSchema) : M TypePtr :=
  match returns functionSchema with
  | [r] => ret (arg_type r)
  | rs => throw (SchemaMismatch (length rs))
  end.

(** [fmt::format("rpc_async_jit#{}({} -> {})", ...)]. *)
Definition rpcAsyncJitKey (qualifiedName : QualifiedName)
    (srcName dstName : string) : string :=
  "rpc_async_jit#" +:+ qualifiedName +:+ "(" +:+ srcName +:+ " -> "
    +:+ dstName +:+ ")".

(** ** [rpcTorchscript] *)
Definition rpcTorchscript (fuel : nat)
    (dstWorkerName : string)
    (qualifiedName : QualifiedName)
    (functionSchema : FunctionSchema)
    (stack : list IValue)
    (rpcTimeoutSeconds : Q)
    (isAsyncExecution : bool) : M FutureId :=
  let* enabled := profilerEnabled in
  let* keySet := isCurrentKeySet in
  let shouldProfile := enabled && negb keySet in
  let* handle :=
    (if shouldProfile then
       let* self := getCurrentWorkerInfo in
       let key := rpcAsyncJitKey qualifiedName (name_ self) dstWorkerName in
       let* h := record_function_enter key in
       setCurrentKey key ;;;
       ret h
     else ret (zeros 1)) in
  (* [handle] is an automatic variable of the function *)
  unwinding (releaseHandle handle)
    (let scriptCall := {| qualifiedName_ := qualifiedName;
                          stack_ := stack;
                          isAsyncExecution_ := isAsyncExecution |} in
     let* dst := getWorkerInfo dstWorkerName in
     let* jitFuture :=
       sendMessageWithAutograd dst (ScriptCall_toMessage scriptCall)
                               true rpcTimeoutSeconds in
     let* returnType := singleReturnType functionSchema in
     let* futPtr := createInstance jitFuture returnType in
     let wp := {| wp_target := jitFuture |} in
     addCallback fuel jitFuture
                 (RpcCallback {| ip_target := futPtr |} wp) ;;;
     if shouldProfile then _call_end_callbacks_on_fut fuel handle futPtr
     else ret futPtr).

(** ** [remoteTorchscript] *)
Definition remoteTorchscript (fuel : nat)
    (dstWorkerName : string)
    (qualifiedName : QualifiedName)
    (functionSchema : FunctionSchema)
    (stack : list IValue)
    (rpcTimeoutSeconds : Q)
    (isAsyncExecution : bool) : M RRefPtr :=
  let* dstWorkerInfo := getWorkerInfo dstWorkerName in
  let* returnType := singleReturnType functionSchema in
  let* selfId := getWorkerId in
  if bool_decide (selfId ≠ id_ dstWorkerInfo) then
    let* userRRefPtr := createUserRRef (id_ dstWorkerInfo) returnType in
    let* userRRef := derefRRef userRRefPtr in
    let* userForkId :=
      (match forkId userRRef with
       | Some f => ret f
       | None => throw NullPointerDereference
       end) in
    let scriptRemoteCall :=
      {| call_ := {| qualifiedName_ := qualifiedName;
                     stack_ := stack;
                     isAsyncExecution_ := isAsyncExecution |};
         retRRefId_ := rrefId userRRef;
         retForkId_ := userForkId |} in
    let* jitFuture :=
      sendMessageWithAutograd dstWorkerInfo
        (ScriptRemoteCall_toMessage scriptRemoteCall)
        true rpcTimeoutSeconds in
    registerOwnerCreationFuture userRRefPtr jitFuture ;;;
    addPendingUser userForkId userRRefPtr ;;;
    let wp := {| wp_target := jitFuture |} in
    addCallback fuel jitFuture (ConfirmUserCallback wp userForkId) ;;;
    ret userRRefPtr
  else
    let* ownerRRefPtr := createOwnerRRef returnType in
    addSelfAsFork ownerRRefPtr ;;;
    let* ownerRRef := derefRRef ownerRRefPtr in
    let scriptRemoteCall :=
      {| call_ := {| qualifiedName_ := qualifiedName;
                     stack_ := stack;
                     isAsyncExecution_ := isAsyncExecution |};
         retRRefId_ := rrefId ownerRRef;
         retForkId_ := rrefId ownerRRef |} in
    let* jitFuture :=
      sendMessageWithAutograd dstWorkerInfo
        (ScriptRemoteCall_toMessage scriptRemoteCall)
        true rpcTimeoutSeconds in
    registerOwnerCreationFuture ownerRRefPtr jitFuture ;;;
    let wp := {| wp_target := jitFuture |} in
    addCallback fuel jitFuture
                (FinishOwnerCallback wp (rrefId ownerRRef)) ;;;
    ret ownerRRefPtr.

End TorchscriptFunctions.

(** ** Reading the log *)

Definition isSend (e : Event) : bool :=
  match e with EvSend _ _ _ _ _ => true | _ => false end.

Definition isAddPendingUser (fid : ForkId) (e : Event) : bool :=
  match e with EvAddPendingUser f _ => bool_decide (f = fid) | _ => false end.

Definition isAddSelfAsFork (rid : RRefId) (e : Event) : bool :=
  match e with EvAddSelfAsFork i => bool_decide (i = rid) | _ => false end.

Definition isAddCallbackOn (a : FutureId) (e : Event) : bool :=
  match e with EvAddCallback b _ => bool_decide (b = a) | _ => false end.

Definition isConfirmPendingUser (fid : ForkId) (e : Event) : bool :=
  match e with
  | EvConfirmPendingUser f _ => bool_decide (f = fid)
  | _ => false
  end.

Definition isFinishCreatingOwnerRRef (rid : RRefId) (e : Event) : bool :=
  match e with
  | EvFinishCreatingOwnerRRef i _ => bool_decide (i = rid)
  | _ => false
  end.

Definition isRecordFunctionEnter (span : nat) (e : Event) : bool :=
  match e with
  | EvRecordFunctionEnter _ s => bool_decide (s = span)
  | _ => false
  end.

Definition isSetCurrentKey (e : Event) : bool :=
  match e with EvSetCurrentKey _ => true | _ => false end.

Definition isRecordFunctionExit (span : nat) (e : Event) : bool :=
  match e with
  | EvRecordFunctionExit s => bool_decide (s = span)
  | _ => false
  end.

(** The calls on the RRef context and on references. *)
Definition isRRefCall (e : Event) : bool :=
  match e with
  | EvCreateUserRRef _ _ _ | EvCreateOwnerRRef _ _ | EvAddSelfAsFork _
  | EvRegisterOwnerCreationFuture _ _ | EvAddPendingUser _ _
  | EvConfirmPendingUser _ _ | EvFinishCreatingOwnerRRef _ _ => true
  | _ => false
  end.

(** [preceded P Q h]: in the history [h], oldest event first, every event
    that satisfies [Q] comes after some event that satisfies [P]. *)
Fixpoint preceded_from (seen : bool) (P Q : Event -> bool) (h : list Event)
  : bool :=
  match h with
  | [] => true
  | e :: h' => (negb (Q e) || seen) && preceded_from (seen || P e) P Q h'
  end.

Definition preceded (P Q : Event -> bool) (h : list Event) : bool :=
  preceded_from false P Q h.

Definition occurs (P : Event -> bool) (h : list Event) : bool := existsb P h.

Definition count (P : Event -> bool) (h : list Event) : nat :=
  length (List.filter P h).

(** [call_history w w' h]: going from [w] to [w'] made exactly the calls
    [h], oldest first. *)
Definition call_history (w w' : World) (h : list Event) : Prop :=
  trace w' = rev h ++ trace w.

(** The futures handed out by the transport in [h]. *)
Definition sentFutures (h : list Event) : list FutureId :=
  flat_map (fun e => match e with EvSend _ _ _ _ a => [a] | _ => [] end) h.

(** The messages handed to the transport in [h]. *)
Definition sentMessages (h : list Event) : list Message :=
  flat_map (fun e => match e with EvSend _ m _ _ _ => [m] | _ => [] end) h.

(** The callbacks that [h] registers on futures handed out by the
    transport, each with its future. *)
Definition transportCallbacks (h : list Event) : list (FutureId * Callback) :=
  flat_map (fun e => match e with
                     | EvAddCallback a cb =>
                         if bool_decide (a ∈ sentFutures h) then [(a, cb)]
                         else []
                     | _ => []
                     end) h.

(** [shouldProfile] as [rpcTorchscript] computes it on entry. *)
Definition shouldProfile (w : World) : bool :=
  profilerEnabled_ (profiler w) && negb (currentKeySet (profiler w)).

(** [weak_upgrade_unchecked dec a cb]: the closure [cb] holds the future [a]
    through a weak handle and through no owning handle, and when it runs it
    uses the result of upgrading that handle without testing it: if [a] is
    no longer alive, the run is the use of an empty handle. *)
Definition weak_upgrade_unchecked (dec : Message -> Res IValue)
    (a : FutureId) (cb : Callback) : Prop :=
  In a (weak_captures cb) /\
  ~ In a (strong_captures cb) /\
  forall settleFn self w,
    futures w !! a = None ->
    run_callback dec settleFn self cb w = (Throw NullPointerDereference, w).

Definition futureType (a : FutureId) (w : World) : option TypePtr :=
  elementType_ <$> futures w !! a.

Definition futureState (a : FutureId) (w : World) : option FutureState :=
  state_ <$> futures w !! a.

Definition futureCallbacks (a : FutureId) (w : World)
  : option (list Callback) :=
  callbacks_ <$> futures w !! a.

(** ** A concrete deployment, used to run the definitions *)

Module Demo.

Definition worker0 : WorkerInfo := {| name_ := "worker0"; id_ := 0 |}.
Definition worker1 : WorkerInfo := {| name_ := "worker1"; id_ := 1 |}.

(** A toy wire format: the payload is the qualified name of the callee. *)
Definition toMessage (sc : ScriptCall) : Message :=
  {| payload_ := String.list_byte_of_string (qualifiedName_ sc);
     tensors_ := [];
     type_ := SCRIPT_CALL |}.

Definition remoteToMessage (src : ScriptRemoteCall) : Message :=
  {| payload_ := String.list_byte_of_string (qualifiedName_ (call_ src));
     tensors_ := [];
     type_ := SCRIPT_REMOTE_CALL |}.

(** A response of type [SCRIPT_RET] decodes to the string it carries;
    nothing else decodes. *)
Definition deserialize (m : Message) : Res IValue :=
  match type_ m with
  | SCRIPT_RET => Ok (IVString (String.string_of_list_byte (payload_ m)))
  | _ => Throw (DecodeError "unsupported response type")
  end.

(** A transport that attaches the profiling key to the message and
    consumes it. *)
Definition consumed (_ : option string) : option string := None.

Definition inFlight (_ : WorkerInfo) (_ : Message) : FutureState := Pending.


Definition response (s : string) : Message :=
  {| payload_ := String.list_byte_of_string s;
     tensors_ := [];
     type_ := SCRIPT_RET |}.

Definition answered (_ : WorkerInfo) (_ : Message) : FutureState :=
  Settled (Value (IVMessage (response "ok")) [7%nat]).

(** Worker 0, knowing itself and worker 1, with nothing outstanding. *)
Definition world0 (profiling : bool) : World :=
  {| agent := {| workerInfo_ := worker0;
                 allWorkerInfo_ := [worker0; worker1] |};
     profiler := {| profilerEnabled_ := profiling;
                    currentKey_ := None;
                    activeSpans_ := ∅;
                    nextSpan_ := 0 |};
     ctx := {| nextLocalId_ := 0;
               pendingUsers_ := ∅;
               confirmedUsers_ := ∅;
               owners_ := ∅;
               forks_ := ∅ |};
     futures := ∅;
     nextFuture := 0%nat;
     rrefs := ∅;
     nextRRef := 0%nat;
     trace := [] |}.

Definition schema (rets : list Argument) : FunctionSchema :=
  {| schema_name := "my_script_add";
     arguments := [ {| arg_name := "x"; arg_type := TensorType |} ];
     returns := rets |}.

Definition oneReturn : list Argument :=
  [ {| arg_name := ""; arg_type := StringType |} ].

Definition args : list IValue := [IVInt 3; IVInt 4].

(** [callRemote] of [my_script_add] on worker 1, issued on worker 0. *)
Definition callRemote (send : WorkerInfo -> Message -> FutureState)
    (profiling : bool) (rets : list Argument) : Res FutureId * World :=
  rpcTorchscript toMessage deserialize send consumed 3 "worker1"
                 "my_script_add" (schema rets) args 5%Q false
                 (world0 profiling).

(** [remoteRef] of [my_script_add] on the worker called [dstName], issued on
    worker 0. *)
Definition remoteRef (send : WorkerInfo -> Message -> FutureState)
    (dstName : string) (rets : list Argument) : Res RRefPtr * World :=
  remoteTorchscript remoteToMessage deserialize send consumed 3 dstName
                    "my_script_add" (schema rets) args 5%Q false
                    (world0 false).

End Demo.

(** * Properties *)

Lemma call_history_of_delta (w w' : World) (delta : list Event) :
  trace w' = delta ++ trace w -> call_history w w' (rev delta).
Proof. intros H. unfold call_history. rewrite rev_involutive. exact H. Qed.

(** A log that starts empty holds nothing but the history of the call. *)
Lemma call_history_from_empty (w0 w1 : World) (h : list Event) :
  trace w0 = [] -> call_history w0 w1 h -> h = history w1.
Proof.
  unfold call_history, history. intros H0 H. rewrite H0, app_nil_r in H.
  rewrite H, rev_involutive. reflexivity.
Qed.

(** ** The reading of [preceded] *)

Lemma preceded_from_spec (P Q : Event -> bool) (h : list Event) :
  forall seen,
    preceded_from seen P Q h = true <->
    (forall h1 e h2,
       h = h1 ++ e :: h2 -> Q e = true -> seen || existsb P h1 = true).
Proof.
  induction h as [|e0 h' IH]; intros seen; cbn [preceded_from].
  - split; [|reflexivity]. intros _ [|e1 h1] e h2 Heq; discriminate Heq.
  - rewrite andb_true_iff, IH. split.
    + intros [Hhead Htail] [|e1 h1] e h2 Heq HQ; cbn in Heq;
        injection Heq as -> ->.
      * rewrite HQ in Hhead. cbn in Hhead. rewrite Hhead. reflexivity.
      * specialize (Htail h1 e h2 eq_refl HQ). cbn [existsb].
        rewrite <- Htail. apply orb_assoc.
    + intros H. split.
      * destruct (Q e0) eqn:HQ; [|reflexivity].
        specialize (H [] e0 h' eq_refl HQ). cbn in *.
        rewrite orb_false_r in H. exact H.
      * intros h1 e h2 -> HQ.
        specialize (H (e0 :: h1) e h2 eq_refl HQ). cbn [existsb] in H.
        rewrite <- H. symmetry. apply orb_assoc.
Qed.

(** [preceded P Q h] says what its name says: whenever the history splits
    around an event that satisfies [Q], the part before it holds an event
    that satisfies [P]. *)
Lemma preceded_spec (P Q : Event -> bool) (h : list Event) :
  preceded P Q h = true <->
  (forall h1 e h2, h = h1 ++ e :: h2 -> Q e = true -> existsb P h1 = true).
Proof. unfold preceded. rewrite preceded_from_spec. reflexivity. Qed.

(** ** Running the two entry points *)

(** Symbolic execution of a monadic computation on a world: unfold the
    collaborator that is next, reduce, and resolve reads of cells that were
    just written. *)
Ltac mstep :=
  repeat (progress
    (cbn;
     unfold derefRRef, derefFuture, lock, addSelfAsFork,
            registerOwnerCreationFuture, addCallback, createInstance,
            sendMessageWithAutograd, _call_end_callbacks_on_fut, newFuture,
            confirmPendingUser, finishCreatingOwnerRRef, finalizeOwner,
            confirmFork, releaseFork, record_function_exit,
            toCustomClassMessage, decodedAnswer, unwinding, releaseHandle,
            bind, gets, modify, ret, throw, lift;
     cbn;
     rewrite ?lookup_insert_eq, ?lookup_delete_eq;
     rewrite ?lookup_insert_ne by lia)).

(** The same, using the facts [Hdst] about the destination and [Hret] about
    the declared returns where the computation looks them up. *)
Ltac mrun Hdst Hret :=
  repeat (progress
    (mstep; unfold getWorkerInfo, singleReturnType; cbn;
     rewrite ?Hdst, ?Hret)).

(** The events added on top of [tr] in the newest-first log [t]. *)
Ltac delta_of t tr :=
  lazymatch t with
  | tr => constr:(@nil Event)
  | ?e :: ?t' => let d := delta_of t' tr in constr:(e :: d)
  end.

Ltac history_of w w' :=
  let t := eval cbn in (trace w') in
  let d := delta_of t (trace w) in
  eval cbn in (rev d).

(** Instantiate the result, the final world and the history of a goal
    [exists a w' h, (Ok _, _) = (Ok a, w') /\ call_history w w' h /\ _]. *)
Ltac give_result w :=
  lazymatch goal with
  | |- context [ (@Ok ?A ?x, ?w') ] =>
      let h := history_of w w' in
      exists x, w', h; split; [reflexivity|];
      split; [apply (call_history_of_delta w w' (rev h)); reflexivity|]
  end.

(** The same for a goal
    [exists w' h, (Ok _, _) = (Ok _, w') /\ call_history w w' h /\ _]. *)
Ltac give_world w :=
  lazymatch goal with
  | |- context [ (@Ok ?A ?x, ?w') ] =>
      let h := history_of w w' in
      exists w', h; split; [reflexivity|];
      split; [apply (call_history_of_delta w w' (rev h)); reflexivity|]
  end.

(** The same for a goal
    [exists w' h, (Throw _, _) = (Throw _, w') /\ call_history w w' h /\ _]. *)
Ltac give_thrown w :=
  lazymatch goal with
  | |- context [ (@Throw ?A ?x, ?w') ] =>
      let h := history_of w w' in
      exists w', h; split; [reflexivity|];
      split; [apply (call_history_of_delta w w' (rev h)); reflexivity|]
  end.

(** The same for a computation that may have thrown: a goal
    [exists res w' h, (_, _) = (res, w') /\ call_history w w' h /\ _]. *)
Ltac give_outcome w :=
  lazymatch goal with
  | |- context [ @pair (Res ?A) World ?x ?w' ] =>
      let h := history_of w w' in
      exists x, w', h; split; [reflexivity|];
      split; [apply (call_history_of_delta w w' (rev h)); reflexivity|]
  end.

(** [rpcTorchscript] up to the point where the transport has returned its
    future, in each state of the profiler switch and of the current key. *)
Ltac rpc_cases w Hdst Hret :=
  unfold rpcTorchscript; mrun Hdst Hret;
  destruct (profilerEnabled_ (profiler w)) eqn:Hen;
  destruct (currentKey_ (profiler w)) eqn:Hkey;
  unfold currentKeySet; rewrite ?Hkey; mrun Hdst Hret.

(** The states in which the transport can hand back its future: pending,
    settled with a value (a message or not, decodable or not), settled with
    an error. *)
Ltac send_cases send dst dec :=
  destruct (send dst _) as [|[[]|e]] eqn:Hs; mstep;
  try (destruct (dec _) eqn:Hdec; mstep).

Ltac decide_false :=
  rewrite ?bool_decide_false
    by (rewrite ?list_elem_of_singleton; first [lia | congruence]).

Ltac decide_true := rewrite ?bool_decide_true by (done || set_solver).

Section Properties.

Variable toMsg : ScriptCall -> Message.
Variable rToMsg : ScriptRemoteCall -> Message.
Variable dec : Message -> Res IValue.
Variable send : WorkerInfo -> Message -> FutureState.
Variable ambient : option string -> option string.

Local Abbreviation rpc := (rpcTorchscript toMsg dec send ambient).
Local Abbreviation remote := (remoteTorchscript rToMsg dec send ambient).

(** ** The future model: single assignment and fuel *)

(** A settled future cannot be settled again, and the attempt changes
    nothing. *)
Lemma settle_settled n a s s0 w :
  futureState a w = Some (Settled s0) ->
  settle dec (S n) a s w = (Throw AlreadySettled, w).
Proof.
  unfold futureState. intros H.
  cbn [settle]. unfold bind, derefFuture.
  destruct (futures w !! a) as [f|]; [|discriminate H].
  cbn in H. injection H as H. rewrite H. reflexivity.
Qed.

Lemma run_callback_more_fuel (f g : FutureId -> Settlement -> M unit)
    self cb w :
  (forall a s w', fst (f a s w') <> Throw OutOfFuel -> g a s w' = f a s w') ->
  fst (run_callback dec f self cb w) <> Throw OutOfFuel ->
  run_callback dec g self cb w = run_callback dec f self cb w.
Proof.
  intros Hagree.
  destruct cb; unfold run_callback, bind, lock, gets, derefFuture, lift,
    toCustomClassMessage, record_function_exit, modify, ret, throw; cbn;
    repeat (match goal with
            | |- context [match ?x with _ => _ end] => destruct x; cbn
            end);
    intros Hrun; try reflexivity; apply Hagree; exact Hrun.
Qed.

Lemma run_callbacks_more_fuel (f g : Callback -> M unit) cbs :
  (forall cb w', fst (f cb w') <> Throw OutOfFuel -> g cb w' = f cb w') ->
  forall w,
    fst (run_callbacks f cbs w) <> Throw OutOfFuel ->
    run_callbacks g cbs w = run_callbacks f cbs w.
Proof.
  intros Hagree. induction cbs as [|cb rest IH]; intros w Hrun.
  - reflexivity.
  - cbn [run_callbacks] in *. unfold bind in *.
    destruct (f cb w) as [[[]|e] w1] eqn:Hf.
    + rewrite Hagree by (rewrite Hf; discriminate). rewrite Hf.
      apply IH. exact Hrun.
    + rewrite Hagree by (rewrite Hf; exact Hrun). rewrite Hf. reflexivity.
Qed.

(** Fuel only bounds the nesting: a settlement that did not run out of fuel
    gives the same result and the same world with more fuel. *)
Lemma settle_more_fuel n :
  forall a s w,
    fst (settle dec n a s w) <> Throw OutOfFuel ->
    settle dec (S n) a s w = settle dec n a s w.
Proof.
  induction n as [|n IH]; intros a s w Hrun.
  - cbn in Hrun. congruence.
  - cbn [settle] in *. unfold bind, derefFuture in *.
    destruct (futures w !! a) as [f|]; [|reflexivity].
    destruct (state_ f); [|reflexivity].
    cbn in *. apply run_callbacks_more_fuel; [|exact Hrun].
    intros cb w'. apply run_callback_more_fuel. exact IH.
Qed.

(** C6: remoteRef branches on the locality of the resolved destination.  If
    the destination id differs from the local worker id, the call creates
    (through the registry, with the destination as owner and the declared
    return type) and returns a User reference; if the two ids are equal, it
    creates and returns an Owner reference. *)
Theorem remoteTorchscript_branches_on_locality
    fuel dstName qn schema stack timeout async w dst r :
  findWorker dstName (agent w) = Some dst ->
  returns schema = [r] ->
  exists p w' h,
    remote fuel dstName qn schema stack timeout async w = (Ok p, w') /\
    call_history w w' h /\
    exists ref,
    rrefs w' !! p = Some ref /\
    rrefType ref = arg_type r /\
    if bool_decide (id_ (workerInfo_ (agent w)) ≠ id_ dst)
    then isOwner ref = false /\ owner ref = id_ dst /\
         exists fid, In (EvCreateUserRRef p (rrefId ref) fid) h
    else isOwner ref = true /\ owner ref = id_ (workerInfo_ (agent w)) /\
         In (EvCreateOwnerRRef p (rrefId ref)) h.
Proof.
  intros Hdst Hret.
  unfold remoteTorchscript. mrun Hdst Hret.
  destruct (bool_decide (id_ (workerInfo_ (agent w)) ≠ id_ dst)) eqn:Hloc.
  - (* user branch *)
    mstep. send_cases send dst dec;
      give_result w; cbn; rewrite lookup_insert_eq; eexists;
      (split; [reflexivity|]); cbn; eauto 10.
  - (* owner branch *)
    mstep. send_cases send dst dec;
      give_result w; cbn; rewrite lookup_insert_eq; eexists;
      (split; [reflexivity|]); cbn; eauto 10.
Qed.

(** C7: when the destination is the local worker, the Owner reference is
    registered as its own fork (addSelfAsFork) before the message is handed
    to the transport, hence before the creation future, which that send
    returns, exists and can settle, and before the handler that reacts to
    the settlement runs. *)
Theorem remoteTorchscript_owner_self_fork_before_send
    fuel dstName qn schema stack timeout async w dst r :
  findWorker dstName (agent w) = Some dst ->
  returns schema = [r] ->
  id_ (workerInfo_ (agent w)) = id_ dst ->
  exists p w' h,
    remote fuel dstName qn schema stack timeout async w = (Ok p, w') /\
    call_history w w' h /\
    exists ref fut,
      rrefs w' !! p = Some ref /\
      isOwner ref = true /\
      creationFuture ref = Some fut /\
      sentFutures h = [fut] /\
      occurs (isAddSelfAsFork (rrefId ref)) h = true /\
      preceded (isAddSelfAsFork (rrefId ref)) isSend h = true /\
      preceded (isAddSelfAsFork (rrefId ref))
               (isFinishCreatingOwnerRRef (rrefId ref)) h = true /\
      owners_ (ctx w') !! rrefId ref = Some p /\
      exists forks, forks_ (ctx w') !! rrefId ref = Some forks /\
                    rrefId ref ∈ forks.
Proof.
  intros Hdst Hret Hloc.
  unfold remoteTorchscript. mrun Hdst Hret.
  rewrite bool_decide_false by (intros Hne; exact (Hne Hloc)).
  mstep.
  send_cases send dst dec;
    give_result w; cbn; rewrite lookup_insert_eq; eexists _, _;
    (split; [reflexivity|]); cbn; decide_true; cbn;
    rewrite ?lookup_insert_eq;
    repeat (split; [reflexivity|]);
    (eexists; split; [reflexivity|]); set_solver.
Qed.

(** C8: when the destination is the local worker, the reference-creating
    call descriptor carries the pair (referenceId, referenceId): the Owner
    reference's own id is both the reference id and the fork id, and no
    separate fork id is allocated (the call draws exactly one fresh id). *)
Theorem remoteTorchscript_owner_descriptor_ids
    fuel dstName qn schema stack timeout async w dst r :
  findWorker dstName (agent w) = Some dst ->
  returns schema = [r] ->
  id_ (workerInfo_ (agent w)) = id_ dst ->
  exists p w' h,
    remote fuel dstName qn schema stack timeout async w = (Ok p, w') /\
    call_history w w' h /\
    exists ref,
      rrefs w' !! p = Some ref /\
      isOwner ref = true /\
      forkId ref = None /\
      sentMessages h =
        [rToMsg {| call_ := {| qualifiedName_ := qn;
                               stack_ := stack;
                               isAsyncExecution_ := async |};
                   retRRefId_ := rrefId ref;
                   retForkId_ := rrefId ref |}] /\
      (nextLocalId_ (ctx w') = nextLocalId_ (ctx w) + 1)%Z.
Proof.
  intros Hdst Hret Hloc.
  unfold remoteTorchscript. mrun Hdst Hret.
  rewrite bool_decide_false by (intros Hne; exact (Hne Hloc)).
  mstep.
  send_cases send dst dec;
    give_result w; cbn; rewrite lookup_insert_eq; eexists;
    (split; [reflexivity|]); cbn; auto.
Qed.


(** C2 (amended): for every remoteRef call whose destination is a different
    worker, the fork is registered as pending (addPendingUser keyed by the
    new reference's fork id) after the message has been handed to the
    transport and strictly before the confirmation callback is registered on
    the transport future, so that the confirmation handler never runs for a
    fork that is not yet pending. *)
Theorem remoteTorchscript_pending_before_confirmation
    fuel dstName qn schema stack timeout async w dst r :
  findWorker dstName (agent w) = Some dst ->
  returns schema = [r] ->
  id_ (workerInfo_ (agent w)) ≠ id_ dst ->
  exists p w' h,
    remote fuel dstName qn schema stack timeout async w = (Ok p, w') /\
    call_history w w' h /\
    exists ref fid fut,
      rrefs w' !! p = Some ref /\
      forkId ref = Some fid /\
      sentFutures h = [fut] /\
      count (isAddPendingUser fid) h = 1%nat /\
      preceded isSend (isAddPendingUser fid) h = true /\
      occurs (isAddCallbackOn fut) h = true /\
      preceded (isAddPendingUser fid) (isAddCallbackOn fut) h = true /\
      preceded (isAddPendingUser fid) (isConfirmPendingUser fid) h = true.
Proof.
  intros Hdst Hret Hne.
  unfold remoteTorchscript. mrun Hdst Hret.
  rewrite bool_decide_true by done.
  mstep.
  send_cases send dst dec;
    give_result w; cbn; rewrite lookup_insert_eq; eexists _, _, _;
    (split; [reflexivity|]); cbn; decide_true; cbn;
    repeat (split; [reflexivity|]); reflexivity.
Qed.



(** C5: for every callRemote call, the callback registered on the transport
    future F bridges F to the typed result future R, a future of the
    declared return type.  If F settles with an error, that error is set on
    R; if F settles with a value, the transport payload is deserialized and
    R is completed with the deserialized value together with the data
    handles that F carries. *)
Theorem rpcTorchscript_callback_bridges
    fuel dstName qn schema stack timeout async w dst r :
  findWorker dstName (agent w) = Some dst ->
  returns schema = [r] ->
  exists res w1 h,
    rpc (S fuel) dstName qn schema stack timeout async w = (res, w1) /\
    call_history w w1 h /\
    exists F R,
      sentFutures h = [F] /\
      transportCallbacks h =
        [(F, RpcCallback {| ip_target := R |} {| wp_target := F |})] /\
      futureType R w1 = Some (arg_type r) /\
      match futureState F w1 with
      | Some Pending =>
          (* in flight when the call returns: the callback waits on F *)
          (exists fut, res = Ok fut) /\
          futureCallbacks F w1 =
            Some [RpcCallback {| ip_target := R |} {| wp_target := F |}] /\
          futureState R w1 = Some Pending /\
          (forall e n,
             exists w2,
               settle dec (S (S (S n))) F (Error e) w1 = (Ok tt, w2) /\
               futureState R w2 = Some (Settled (Error e))) /\
          (forall m v ptrs n,
             dec m = Ok v ->
             exists w2,
               settle dec (S (S (S n))) F (Value (IVMessage m) ptrs) w1
                 = (Ok tt, w2) /\
               futureState R w2 = Some (Settled (Value v ptrs)))
      | Some (Settled (Error e)) =>
          (exists fut, res = Ok fut) /\
          futureState R w1 = Some (Settled (Error e))
      | Some (Settled (Value (IVMessage m) ptrs)) =>
          forall v, dec m = Ok v ->
            (exists fut, res = Ok fut) /\
            futureState R w1 = Some (Settled (Value v ptrs))
      | Some (Settled (Value _ _)) => res = Throw NotAMessage
      | None => False
      end.
Proof.
  intros Hdst Hret.
  rpc_cases w Hdst Hret; send_cases send dst dec.
  (* F is the future of the send, R the one made by createInstance *)
  all: give_outcome w;
       exists (nextFuture w), (S (nextFuture w)); cbn;
       decide_true; decide_false; cbn;
       repeat (split; [reflexivity|]);
       unfold futureType, futureState, futureCallbacks; mstep;
       repeat (split; [reflexivity|]).
  (* the call returned and R is untouched, or F had settled with an error *)
  all: try (split; [eexists; reflexivity|]);
       repeat (split; [reflexivity|]); try reflexivity.
  (* F in flight: settle it afterwards *)
  all: try (split; [intros e0 n|intros m0 v0 ptrs0 n Hv0]; mstep;
            rewrite ?Hv0; mstep; eexists; (split; [reflexivity|]);
            mstep; reflexivity).
  (* F had settled with a message: R holds what [dec] made of it *)
  all: congruence.
Qed.


(** C9: for every callRemote call, if an instrumentation span was opened at
    entry (before the message is sent), the returned future is not R but the
    future that wraps it: the span is closed by the settlement of R, which
    also settles the returned future in the same way.  If no span was
    opened, the typed result future R itself is returned. *)
Theorem rpcTorchscript_profiled_future
    fuel dstName qn schema stack timeout async w dst r :
  findWorker dstName (agent w) = Some dst ->
  returns schema = [r] ->
  exists res w1 h,
    rpc (S fuel) dstName qn schema stack timeout async w = (res, w1) /\
    call_history w w1 h /\
    exists F R,
      transportCallbacks h =
        [(F, RpcCallback {| ip_target := R |} {| wp_target := F |})] /\
      (futureState F w1 = Some Pending -> exists fut, res = Ok fut) /\
      if shouldProfile w then
        let span := nextSpan_ (profiler w) in
        occurs (isRecordFunctionEnter span) h = true /\
        preceded (isRecordFunctionEnter span) isSend h = true /\
        forall fut, res = Ok fut ->
          fut <> R /\
          match futureState R w1 with
          | Some Pending =>
              is_Some (activeSpans_ (profiler w1) !! span) /\
              count (isRecordFunctionExit span) h = 0%nat /\
              futureState fut w1 = Some Pending /\
              forall s n,
              exists w2 h2,
                settle dec (S (S n)) R s w1 = (Ok tt, w2) /\
                call_history w w2 h2 /\
                count (isRecordFunctionExit span) h2 = 1%nat /\
                activeSpans_ (profiler w2) !! span = None /\
                futureState fut w2 = Some (Settled s)
          | Some (Settled s) =>
              count (isRecordFunctionExit span) h = 1%nat /\
              activeSpans_ (profiler w1) !! span = None /\
              futureState fut w1 = Some (Settled s)
          | None => False
          end
      else
        (forall span, occurs (isRecordFunctionEnter span) h = false) /\
        forall fut, res = Ok fut -> fut = R.
Proof.
  intros Hdst Hret.
  unfold shouldProfile.
  rpc_cases w Hdst Hret; send_cases send dst dec.
  all: give_outcome w;
       exists (nextFuture w), (S (nextFuture w)); cbn;
       decide_true; decide_false; cbn;
       repeat (split; [reflexivity|]);
       unfold futureType, futureState, futureCallbacks; mstep.
  all: (split; [first [intros _; eexists; reflexivity | discriminate]|]).
  (* no span was opened: R itself is returned *)
  all: try (split; [intros; reflexivity
                   |intros fut Hf; inversion Hf; reflexivity]).
  (* a span was opened, before the send *)
  all: decide_true; cbn; do 2 (split; [reflexivity|]).
  all: intros fut Hf; try discriminate; inversion Hf; subst fut; clear Hf.
  all: (split; [lia|]); mstep.
  all: repeat (split; [first [reflexivity | eexists; reflexivity]|]).
  (* R had settled before the wrapper was installed *)
  all: try reflexivity.
  (* R pending: settle it afterwards *)
  intros s n; mstep. give_world w; cbn; decide_true; cbn.
  mstep. repeat (split; [reflexivity|]). reflexivity.
Qed.


Lemma weak_upgrade_unchecked_RpcCallback (F R : FutureId) :
  R <> F ->
  weak_upgrade_unchecked dec F
    (RpcCallback {| ip_target := R |} {| wp_target := F |}).
Proof.
  intros Hne. split; [left; reflexivity|]. split.
  - intros [H|[]]. exact (Hne H).
  - intros settleFn self w2 Hgone.
    unfold run_callback, lock, bind, gets. cbn. rewrite Hgone. reflexivity.
Qed.

Lemma weak_upgrade_unchecked_ConfirmUserCallback (F : FutureId) fid :
  weak_upgrade_unchecked dec F (ConfirmUserCallback {| wp_target := F |} fid).
Proof.
  split; [left; reflexivity|]. split; [intros []|].
  intros settleFn self w2 Hgone.
  unfold run_callback, lock, bind, gets. cbn. rewrite Hgone. reflexivity.
Qed.

Lemma weak_upgrade_unchecked_FinishOwnerCallback (F : FutureId) rid :
  weak_upgrade_unchecked dec F (FinishOwnerCallback {| wp_target := F |} rid).
Proof.
  split; [left; reflexivity|]. split; [intros []|].
  intros settleFn self w2 Hgone.
  unfold run_callback, lock, bind, gets. cbn. rewrite Hgone. reflexivity.
Qed.

(** C3 (amended): every callback that callRemote or remoteRef registers on
    a transport future holds that future only through a non-owning (weak)
    handle.  At callback-run time the handle is upgraded and the result is
    used without a check: there is no abort path, and with a future that is
    no longer alive the run is the use of an empty handle, not a no-op. *)
Theorem transport_callbacks_weak_and_unchecked
    fuel dstName qn schema stack timeout async w dst r :
  findWorker dstName (agent w) = Some dst ->
  returns schema = [r] ->
  (exists res w' h,
     rpc fuel dstName qn schema stack timeout async w = (res, w') /\
     call_history w w' h /\
     transportCallbacks h <> [] /\
     Forall (fun ac => weak_upgrade_unchecked dec (fst ac) (snd ac))
            (transportCallbacks h)) /\
  (exists res w' h,
     remote fuel dstName qn schema stack timeout async w = (res, w') /\
     call_history w w' h /\
     transportCallbacks h <> [] /\
     Forall (fun ac => weak_upgrade_unchecked dec (fst ac) (snd ac))
            (transportCallbacks h)).
Proof.
  intros Hdst Hret. split.
  - rpc_cases w Hdst Hret; send_cases send dst dec.
    all: try (destruct fuel; mstep).
    all: give_outcome w; cbn; decide_true; decide_false; cbn.
    all: (split; [discriminate|]).
    all: (constructor; [cbn|constructor]).
    all: apply weak_upgrade_unchecked_RpcCallback; lia.
  - unfold remoteTorchscript. mrun Hdst Hret.
    destruct (bool_decide (id_ (workerInfo_ (agent w)) ≠ id_ dst)); mstep.
    all: send_cases send dst dec.
    all: give_outcome w; cbn; decide_true; decide_false; cbn.
    all: (split; [discriminate|]).
    all: (constructor; [cbn|constructor]).
    all: first [apply weak_upgrade_unchecked_ConfirmUserCallback
               |apply weak_upgrade_unchecked_FinishOwnerCallback].
Qed.

(** The arity check of [remoteTorchscript] comes before every effect: with a
    resolved destination and a return arity other than one, the call throws
    and the world, its log included, is unchanged. *)
Lemma remoteTorchscript_arity_checked_first
    fuel dstName qn schema stack timeout async w dst :
  findWorker dstName (agent w) = Some dst ->
  length (returns schema) <> 1%nat ->
  remote fuel dstName qn schema stack timeout async w
  = (Throw (SchemaMismatch (length (returns schema))), w).
Proof.
  intros Hdst Hlen.
  unfold remoteTorchscript, bind, getWorkerInfo. rewrite Hdst.
  unfold singleReturnType.
  destruct (returns schema) as [|r1 [|r2 rs]]; cbn in *;
    try reflexivity; congruence.
Qed.

(** [rpcTorchscript] checks the arity only after the send: with a resolved
    destination and a return arity other than one, the call throws, and by
    then exactly one message has been handed to the transport. *)
Lemma rpcTorchscript_arity_checked_after_send
    fuel dstName qn schema stack timeout async w dst :
  findWorker dstName (agent w) = Some dst ->
  length (returns schema) <> 1%nat ->
  exists w' h,
    rpc fuel dstName qn schema stack timeout async w
    = (Throw (SchemaMismatch (length (returns schema))), w') /\
    call_history w w' h /\
    sentMessages h = [toMsg {| qualifiedName_ := qn;
                               stack_ := stack;
                               isAsyncExecution_ := async |}].
Proof.
  intros Hdst Hlen.
  rpc_cases w Hdst Hlen.
  all: destruct (returns schema) as [|r1 [|r2 rs]]; cbn in *;
    try congruence; mstep.
  all: give_thrown w; reflexivity.
Qed.


End Properties.

(** ** The properties on the concrete deployment *)

(** C1: a callRemote whose target function declares no return value.  The
    call throws the arity failure, but only after the message has been
    handed to the transport: the log of the call holds the send. *)
Theorem rpcTorchscript_bad_arity_sends_first :
  fst (Demo.callRemote Demo.inFlight false []) = Throw (SchemaMismatch 0) /\
  sentMessages (history (snd (Demo.callRemote Demo.inFlight false [])))
  = [Demo.toMessage {| qualifiedName_ := "my_script_add";
                       stack_ := Demo.args;
                       isAsyncExecution_ := false |}] /\
  count isSend (history (snd (Demo.callRemote Demo.inFlight false [])))
  = 1%nat.
Proof. vm_compute. repeat split; reflexivity. Qed.

(** For comparison, the same ill-formed schema given to remoteRef: nothing
    is sent. *)
Example remoteTorchscript_bad_arity_sends_nothing :
  Demo.remoteRef Demo.inFlight "worker1" []
  = (Throw (SchemaMismatch 0), Demo.world0 false).
Proof.
  apply (remoteTorchscript_arity_checked_first
           Demo.remoteToMessage Demo.deserialize Demo.inFlight Demo.consumed 3
           "worker1" "my_script_add" (Demo.schema []) Demo.args 5%Q false
           (Demo.world0 false) Demo.worker1); [reflexivity|cbn; lia].
Qed.

(** C2, as claimed, fails: in a remoteRef call from worker 0 to worker 1 the
    message is handed to the transport while the fork of the returned
    reference has not been registered as pending; the registration follows
    the send.  It does so as well when the transport has already answered
    by the time it returns its future. *)
Lemma remoteTorchscript_pending_before_send_counterexample :
  let run := Demo.remoteRef Demo.inFlight "worker1" Demo.oneReturn in
  let run' := Demo.remoteRef Demo.answered "worker1" Demo.oneReturn in
  let fid := {| createdOn_ := 0; localId_ := 1 |} in
  fst run = Ok 0%nat /\
  (forkId <$> rrefs (snd run) !! 0%nat) = Some (Some fid) /\
  occurs isSend (history (snd run)) = true /\
  ~ (preceded (isAddPendingUser fid) isSend (history (snd run)) = true) /\
  fst run' = Ok 0%nat /\
  (forkId <$> rrefs (snd run') !! 0%nat) = Some (Some fid) /\
  occurs isSend (history (snd run')) = true /\
  ~ (preceded (isAddPendingUser fid) isSend (history (snd run')) = true).
Proof.
  vm_compute. repeat split; try reflexivity; discriminate.
Qed.

(** C3, as claimed, fails: the callback that callRemote registers on the
    transport future, run after that future has been destroyed, is not a
    no-op; it uses the empty handle.  The same holds for the callback that
    remoteRef registers. *)
Lemma callback_on_destroyed_future_counterexample :
  let w1 := snd (Demo.callRemote Demo.inFlight false Demo.oneReturn) in
  let w2 := snd (Demo.remoteRef Demo.inFlight "worker1" Demo.oneReturn) in
  let cb1 := RpcCallback {| ip_target := 1%nat |} {| wp_target := 0%nat |} in
  let cb2 := ConfirmUserCallback {| wp_target := 0%nat |}
                                 {| createdOn_ := 0; localId_ := 1 |} in
  futureCallbacks 0%nat w1 = Some [cb1] /\
  futureCallbacks 0%nat w2 = Some [cb2] /\
  run_callback Demo.deserialize (settle Demo.deserialize 3) 0%nat cb1
               (destroyFuture 0%nat w1)
    <> (Ok tt, destroyFuture 0%nat w1) /\
  run_callback Demo.deserialize (settle Demo.deserialize 3) 0%nat cb2
               (destroyFuture 0%nat w2)
    <> (Ok tt, destroyFuture 0%nat w2).
Proof.
  repeat split; try (vm_compute; reflexivity).
  - intros H. apply (f_equal fst) in H. vm_compute in H. discriminate.
  - intros H. apply (f_equal fst) in H. vm_compute in H. discriminate.
Qed.

(** ** The general theorems applied to the concrete deployment *)

(** C6 at work: worker 0 asks for a reference on worker 1 and gets a User
    reference owned by worker 1. *)
Lemma remoteTorchscript_branches_on_locality_witness :
  findWorker "worker1" (agent (Demo.world0 false)) = Some Demo.worker1 /\
  returns (Demo.schema Demo.oneReturn) = Demo.oneReturn /\
  exists p w' ref,
    Demo.remoteRef Demo.inFlight "worker1" Demo.oneReturn = (Ok p, w') /\
    rrefs w' !! p = Some ref /\
    isOwner ref = false /\
    owner ref = 1.
Proof.
  split; [reflexivity|]. split; [reflexivity|].
  destruct (remoteTorchscript_branches_on_locality
              Demo.remoteToMessage Demo.deserialize Demo.inFlight
              Demo.consumed 3
              "worker1" "my_script_add" (Demo.schema Demo.oneReturn)
              Demo.args 5%Q false (Demo.world0 false) Demo.worker1 _
              eq_refl eq_refl)
    as (p & w' & h & Hrun & _ & ref & Hp & _ & Hb).
  vm_compute in Hb. destruct Hb as (Ho & Hw & _).
  exists p, w', ref. repeat split; assumption.
Defined.

(** C7 at work: worker 0 asks for a reference on itself; the self fork is
    in the registry and was put there before the send. *)
Lemma remoteTorchscript_owner_self_fork_before_send_witness :
  findWorker "worker0" (agent (Demo.world0 false)) = Some Demo.worker0 /\
  returns (Demo.schema Demo.oneReturn) = Demo.oneReturn /\
  id_ (workerInfo_ (agent (Demo.world0 false))) = id_ Demo.worker0 /\
  exists p w' h ref,
    Demo.remoteRef Demo.inFlight "worker0" Demo.oneReturn = (Ok p, w') /\
    call_history (Demo.world0 false) w' h /\
    rrefs w' !! p = Some ref /\
    preceded (isAddSelfAsFork (rrefId ref)) isSend h = true.
Proof.
  split; [reflexivity|]. split; [reflexivity|]. split; [reflexivity|].
  destruct (remoteTorchscript_owner_self_fork_before_send
              Demo.remoteToMessage Demo.deserialize Demo.inFlight
              Demo.consumed 3
              "worker0" "my_script_add" (Demo.schema Demo.oneReturn)
              Demo.args 5%Q false (Demo.world0 false) Demo.worker0 _
              eq_refl eq_refl eq_refl)
    as (p & w' & h & Hrun & Hh & ref & fut & Hp & _ & _ & _ & _ & Hpre & _).
  exists p, w', h, ref. repeat split; assumption.
Defined.

(** C8 at work: the message of that call is built from a descriptor whose
    two ids are both the id of the new owner. *)
Lemma remoteTorchscript_owner_descriptor_ids_witness :
  findWorker "worker0" (agent (Demo.world0 false)) = Some Demo.worker0 /\
  returns (Demo.schema Demo.oneReturn) = Demo.oneReturn /\
  id_ (workerInfo_ (agent (Demo.world0 false))) = id_ Demo.worker0 /\
  exists p w' h ref,
    Demo.remoteRef Demo.inFlight "worker0" Demo.oneReturn = (Ok p, w') /\
    call_history (Demo.world0 false) w' h /\
    rrefs w' !! p = Some ref /\
    sentMessages h =
      [Demo.remoteToMessage
         {| call_ := {| qualifiedName_ := "my_script_add";
                        stack_ := Demo.args;
                        isAsyncExecution_ := false |};
            retRRefId_ := rrefId ref;
            retForkId_ := rrefId ref |}] /\
    nextLocalId_ (ctx w') = 1.
Proof.
  split; [reflexivity|]. split; [reflexivity|]. split; [reflexivity|].
  destruct (remoteTorchscript_owner_descriptor_ids
              Demo.remoteToMessage Demo.deserialize Demo.inFlight
              Demo.consumed 3
              "worker0" "my_script_add" (Demo.schema Demo.oneReturn)
              Demo.args 5%Q false (Demo.world0 false) Demo.worker0 _
              eq_refl eq_refl eq_refl)
    as (p & w' & h & Hrun & Hh & ref & Hp & _ & _ & Hmsg & Hid).
  exists p, w', h, ref. repeat split; assumption.
Defined.

(** C2 (amended) at work: from worker 0 to worker 1, the pending
    registration follows the send and precedes the registration of the
    confirmation callback. *)
Lemma remoteTorchscript_pending_before_confirmation_witness :
  findWorker "worker1" (agent (Demo.world0 false)) = Some Demo.worker1 /\
  returns (Demo.schema Demo.oneReturn) = Demo.oneReturn /\
  id_ (workerInfo_ (agent (Demo.world0 false))) <> id_ Demo.worker1 /\
  exists p w' h fid fut,
    Demo.remoteRef Demo.answered "worker1" Demo.oneReturn = (Ok p, w') /\
    call_history (Demo.world0 false) w' h /\
    preceded isSend (isAddPendingUser fid) h = true /\
    preceded (isAddPendingUser fid) (isAddCallbackOn fut) h = true /\
    preceded (isAddPendingUser fid) (isConfirmPendingUser fid) h = true.
Proof.
  split; [reflexivity|]. split; [reflexivity|].
  assert (Hne : id_ (workerInfo_ (agent (Demo.world0 false)))
                <> id_ Demo.worker1) by (cbn; lia).
  split; [exact Hne|].
  destruct (remoteTorchscript_pending_before_confirmation
              Demo.remoteToMessage Demo.deserialize Demo.answered
              Demo.consumed 3
              "worker1" "my_script_add" (Demo.schema Demo.oneReturn)
              Demo.args 5%Q false (Demo.world0 false) Demo.worker1 _
              eq_refl eq_refl Hne)
    as (p & w' & h & Hrun & Hh & ref & fid & fut & _ & _ & _ & _
        & Hafter & _ & Hcb & Hconfirm).
  exists p, w', h, fid, fut. repeat split; assumption.
Defined.

(** C3 (amended) at work: the callbacks registered by the two calls on the
    concrete deployment. *)
Lemma transport_callbacks_weak_and_unchecked_witness :
  findWorker "worker1" (agent (Demo.world0 false)) = Some Demo.worker1 /\
  returns (Demo.schema Demo.oneReturn) = Demo.oneReturn /\
  (exists res w' h,
     Demo.callRemote Demo.inFlight false Demo.oneReturn = (res, w') /\
     call_history (Demo.world0 false) w' h /\
     transportCallbacks h <> [] /\
     Forall (fun ac => weak_upgrade_unchecked Demo.deserialize
                                              (fst ac) (snd ac))
            (transportCallbacks h)) /\
  (exists res w' h,
     Demo.remoteRef Demo.inFlight "worker1" Demo.oneReturn = (res, w') /\
     call_history (Demo.world0 false) w' h /\
     transportCallbacks h <> [] /\
     Forall (fun ac => weak_upgrade_unchecked Demo.deserialize
                                              (fst ac) (snd ac))
            (transportCallbacks h)).
Proof.
  split; [reflexivity|]. split; [reflexivity|].
  exact (transport_callbacks_weak_and_unchecked
           Demo.toMessage Demo.remoteToMessage Demo.deserialize
           Demo.inFlight Demo.consumed 3 "worker1" "my_script_add"
           (Demo.schema Demo.oneReturn) Demo.args 5%Q false
           (Demo.world0 false) Demo.worker1 _ eq_refl eq_refl).
Defined.



(** C5 at work: the call to worker 1 is in flight when callRemote returns;
    the transport then answers, and the typed future holds the decoded
    value and the data handles of the answer. *)
Lemma rpcTorchscript_callback_bridges_witness :
  findWorker "worker1" (agent (Demo.world0 false)) = Some Demo.worker1 /\
  returns (Demo.schema Demo.oneReturn) = Demo.oneReturn /\
  exists res w1 h F R,
    Demo.callRemote Demo.inFlight false Demo.oneReturn = (res, w1) /\
    call_history (Demo.world0 false) w1 h /\
    transportCallbacks h =
      [(F, RpcCallback {| ip_target := R |} {| wp_target := F |})] /\
    futureType R w1 = Some StringType /\
    exists w2,
      settle Demo.deserialize 3 F
             (Value (IVMessage (Demo.response "ok")) [7%nat]) w1
        = (Ok tt, w2) /\
      futureState R w2 = Some (Settled (Value (IVString "ok") [7%nat])).
Proof.
  split; [reflexivity|]. split; [reflexivity|].
  destruct (rpcTorchscript_callback_bridges
              Demo.toMessage Demo.deserialize Demo.inFlight Demo.consumed 2
              "worker1" "my_script_add" (Demo.schema Demo.oneReturn)
              Demo.args 5%Q false (Demo.world0 false) Demo.worker1 _
              eq_refl eq_refl)
    as (res & w1 & h & Hrun & Hh & F & R & Hsent & Hcb & Hty & Hst).
  exists res, w1, h, F, R.
  repeat (split; [assumption|]).
  assert (Hw : w1 = snd (Demo.callRemote Demo.inFlight false Demo.oneReturn))
    by (unfold Demo.callRemote; rewrite Hrun; reflexivity).
  assert (HF : F = 0%nat).
  { apply call_history_from_empty in Hh; [|reflexivity].
    rewrite Hh, Hw in Hsent. vm_compute in Hsent. congruence. }
  assert (Hpend : futureState F w1 = Some Pending)
    by (rewrite HF, Hw; vm_compute; reflexivity).
  rewrite Hpend in Hst. destruct Hst as (_ & _ & _ & _ & Hvalue).
  exact (Hvalue (Demo.response "ok") (IVString "ok") [7%nat] 0%nat eq_refl).
Defined.

(** C9 at work: with profiling on, callRemote returns the wrapping future;
    when the typed future settles, the span is closed and the returned
    future settles with it. *)
Lemma rpcTorchscript_profiled_future_witness :
  findWorker "worker1" (agent (Demo.world0 true)) = Some Demo.worker1 /\
  returns (Demo.schema Demo.oneReturn) = Demo.oneReturn /\
  exists fut w1 h F R,
    Demo.callRemote Demo.inFlight true Demo.oneReturn = (Ok fut, w1) /\
    call_history (Demo.world0 true) w1 h /\
    transportCallbacks h =
      [(F, RpcCallback {| ip_target := R |} {| wp_target := F |})] /\
    fut <> R /\
    exists w2 h2,
      settle Demo.deserialize 2 R (Error RpcTimeout) w1 = (Ok tt, w2) /\
      call_history (Demo.world0 true) w2 h2 /\
      count (isRecordFunctionExit 0) h2 = 1%nat /\
      activeSpans_ (profiler w2) !! 0%nat = None /\
      futureState fut w2 = Some (Settled (Error RpcTimeout)).
Proof.
  split; [reflexivity|]. split; [reflexivity|].
  destruct (rpcTorchscript_profiled_future
              Demo.toMessage Demo.deserialize Demo.inFlight Demo.consumed 2
              "worker1" "my_script_add" (Demo.schema Demo.oneReturn)
              Demo.args 5%Q false (Demo.world0 true) Demo.worker1 _
              eq_refl eq_refl)
    as (res & w1 & h & Hrun & Hh & F & R & Hcb & Hret & Hprof).
  assert (Hw : w1 = snd (Demo.callRemote Demo.inFlight true Demo.oneReturn))
    by (unfold Demo.callRemote; rewrite Hrun; reflexivity).
  assert (Hres : res = Ok 2%nat).
  { change res with (fst (res, w1)). rewrite <- Hrun. vm_compute.
    reflexivity. }
  subst res.
  assert (HR : R = 1%nat).
  { apply call_history_from_empty in Hh; [|reflexivity].
    rewrite Hh, Hw in Hcb. vm_compute in Hcb. congruence. }
  change (shouldProfile (Demo.world0 true)) with true in Hprof.
  cbn [Demo.world0 profiler nextSpan_] in Hprof.
  destruct Hprof as (_ & _ & Hfut).
  destruct (Hfut 2%nat eq_refl) as (Hne & Hst).
  assert (Hpend : futureState R w1 = Some Pending)
    by (rewrite HR, Hw; vm_compute; reflexivity).
  rewrite Hpend in Hst. destruct Hst as (_ & _ & _ & Hsettle).
  exists 2%nat, w1, h, F, R.
  repeat (split; [assumption|]).
  exact (Hsettle (Error RpcTimeout) 0%nat).
Defined.

(** * Further properties of the two entry points *)

Section Coverage.

Variable toMsg : ScriptCall -> Message.
Variable rToMsg : ScriptRemoteCall -> Message.
Variable dec : Message -> Res IValue.
Variable send : WorkerInfo -> Message -> FutureState.
Variable ambient : option string -> option string.

Local Abbreviation rpc := (rpcTorchscript toMsg dec send ambient).
Local Abbreviation remote := (remoteTorchscript rToMsg dec send ambient).

(** X1: remoteTorchscript resolves the destination first (line 94).  When
    the name is unknown the call throws [UnknownWorker] and has no effect at
    all, whatever the declared return arity is: the arity assertion is not
    reached. *)
Theorem remoteTorchscript_unknown_destination
    fuel dstName qn schema stack timeout async w :
  findWorker dstName (agent w) = None ->
  remote fuel dstName qn schema stack timeout async w
  = (Throw (UnknownWorker dstName), w).
Proof.
  intros Hdst. unfold remoteTorchscript, bind, getWorkerInfo.
  rewrite Hdst. reflexivity.
Qed.

(** X2: with a resolved destination and a declared return arity other than
    one, remoteTorchscript throws the arity failure, which reports the
    arity found, before it creates a reference, registers a fork or sends
    anything: the world is unchanged, for a local and for a remote
    destination alike. *)
Theorem remoteTorchscript_bad_arity_no_effect
    fuel dstName qn schema stack timeout async w dst :
  findWorker dstName (agent w) = Some dst ->
  length (returns schema) <> 1%nat ->
  remote fuel dstName qn schema stack timeout async w
  = (Throw (SchemaMismatch (length (returns schema))), w).
Proof.
  intros Hdst Hlen.
  unfold remoteTorchscript, bind, getWorkerInfo. rewrite Hdst.
  unfold singleReturnType.
  destruct (returns schema) as [|r1 [|r2 rs]]; cbn in *;
    [reflexivity|congruence|reflexivity].
Qed.

(** X3: rpcTorchscript resolves the destination only when it builds the
    arguments of the send (line 48), after the profiling block.  With an
    unknown destination it throws [UnknownWorker]; nothing is sent and no
    future is made.  If the call is profiled, the span has been entered and
    the current key set by then.  The exception unwinds the function and
    destroys [handle], which ends the span; the key stays set, since
    nothing was sent that could take it. *)
Theorem rpcTorchscript_unknown_destination
    fuel dstName qn schema stack timeout async w :
  findWorker dstName (agent w) = None ->
  exists w' h,
    rpc fuel dstName qn schema stack timeout async w
    = (Throw (UnknownWorker dstName), w') /\
    call_history w w' h /\
    sentMessages h = [] /\
    futures w' = futures w /\
    if shouldProfile w then
      let key := rpcAsyncJitKey qn (name_ (workerInfo_ (agent w))) dstName in
      let span := nextSpan_ (profiler w) in
      h = [EvRecordFunctionEnter key span; EvSetCurrentKey key;
           EvRecordFunctionExit span] /\
      activeSpans_ (profiler w') !! span = None /\
      currentKey_ (profiler w') = Some key
    else w' = w.
Proof.
  intros Hdst. unfold shouldProfile.
  rpc_cases w Hdst Hdst.
  all: give_thrown w; cbn; rewrite ?lookup_delete_eq;
       repeat (split; [reflexivity|]); reflexivity.
Qed.

(** X4: what a callRemote with a declared return arity other than one
    leaves behind.  The message has gone out, but the transport future has
    no callback and no typed future was made for it, so the answer will
    reach nobody.  If the call is profiled, the span is ended once, after
    the send, by the unwinding of the exception, which destroys [handle];
    it is not ended by the settlement of any future. *)
Theorem rpcTorchscript_bad_arity_leaves_call_unobserved
    fuel dstName qn schema stack timeout async w dst :
  findWorker dstName (agent w) = Some dst ->
  length (returns schema) <> 1%nat ->
  exists w' h,
    rpc fuel dstName qn schema stack timeout async w
    = (Throw (SchemaMismatch (length (returns schema))), w') /\
    call_history w w' h /\
    exists F,
      sentFutures h = [F] /\
      futureCallbacks F w' = Some [] /\
      (forall a, occurs (isAddCallbackOn a) h = false) /\
      (shouldProfile w = true ->
       let span := nextSpan_ (profiler w) in
       count (isRecordFunctionExit span) h = 1%nat /\
       preceded isSend (isRecordFunctionExit span) h = true /\
       activeSpans_ (profiler w') !! span = None).
Proof.
  intros Hdst Hlen. unfold shouldProfile.
  rpc_cases w Hdst Hlen.
  all: destruct (returns schema) as [|r1 [|r2 rs]]; cbn in *;
    try congruence; mstep.
  all: give_thrown w; exists (nextFuture w); cbn;
       unfold futureCallbacks; cbn; rewrite ?lookup_insert_eq; cbn;
       repeat (split; [reflexivity|]).
  all: try (intros Hprof; discriminate Hprof).
  all: intros _; decide_true; cbn; rewrite ?lookup_delete_eq;
       repeat split; reflexivity.
Qed.


(** X5: whenever the destination resolves, rpcTorchscript hands exactly one
    message to the transport, whatever the declared arity and whether the
    destination is the local worker or not.  The message is made from a
    descriptor that holds the qualified name, the caller's arguments in
    their order and the async flag; it is addressed to the resolved worker,
    with forced gradient recording and the caller's timeout. *)
Theorem rpcTorchscript_sends_one_message
    fuel dstName qn schema stack timeout async w dst :
  findWorker dstName (agent w) = Some dst ->
  exists res w' h,
    rpc fuel dstName qn schema stack timeout async w = (res, w') /\
    call_history w w' h /\
    exists F,
      List.filter isSend h =
        [EvSend dst
                (toMsg {| qualifiedName_ := qn;
                          stack_ := stack;
                          isAsyncExecution_ := async |})
                true timeout F].
Proof.
  intros Hdst.
  rpc_cases w Hdst Hdst.
  all: destruct (returns schema) as [|r1 [|r2 rs]]; mstep.
  all: try (send_cases send dst dec).
  all: try (destruct fuel; mstep).
  all: give_outcome w; eexists; reflexivity.
Qed.

(** X6: in the user branch of remoteTorchscript the one message sent is
    made from a descriptor that holds the qualified name, the caller's
    arguments and the async flag together with the reference id and the
    fork id of the very reference that is returned; it goes to the resolved
    worker with forced gradient recording and the caller's timeout, and the
    future of that send is the one the reference keeps as its creation
    future. *)
Theorem remoteTorchscript_user_descriptor_ids
    fuel dstName qn schema stack timeout async w dst r :
  findWorker dstName (agent w) = Some dst ->
  returns schema = [r] ->
  id_ (workerInfo_ (agent w)) ≠ id_ dst ->
  exists p w' h,
    remote fuel dstName qn schema stack timeout async w = (Ok p, w') /\
    call_history w w' h /\
    exists ref fid F,
      rrefs w' !! p = Some ref /\
      forkId ref = Some fid /\
      creationFuture ref = Some F /\
      List.filter isSend h =
        [EvSend dst
                (rToMsg {| call_ := {| qualifiedName_ := qn;
                                       stack_ := stack;
                                       isAsyncExecution_ := async |};
                           retRRefId_ := rrefId ref;
                           retForkId_ := fid |})
                true timeout F].
Proof.
  intros Hdst Hret Hne.
  unfold remoteTorchscript. mrun Hdst Hret.
  rewrite bool_decide_true by done.
  mstep.
  send_cases send dst dec;
    give_result w; cbn; rewrite lookup_insert_eq; eexists _, _, _;
    repeat (split; [reflexivity|]); reflexivity.
Qed.


(** X7: rpcTorchscript makes no call on the RRef context or on a
    reference.  Whatever its arguments, the state it starts from and its
    outcome, among the calls it makes, the callbacks that run before it
    returns included, none creates a reference, registers a fork or a
    pending user, records a creation future, confirms a user or finishes
    an owner. *)
Theorem rpcTorchscript_makes_no_rref_call
    fuel dstName qn schema stack timeout async w :
  exists res w' h,
    rpc fuel dstName qn schema stack timeout async w = (res, w') /\
    call_history w w' h /\
    occurs isRRefCall h = false.
Proof.
  destruct (findWorker dstName (agent w)) as [dst|] eqn:Hdst.
  - rpc_cases w Hdst Hdst.
    all: destruct (returns schema) as [|r1 [|r2 rs]]; mstep.
    all: try (send_cases send dst dec).
    all: try (destruct fuel; mstep).
    all: give_outcome w; reflexivity.
  - rpc_cases w Hdst Hdst.
    all: give_outcome w; reflexivity.
Qed.

(** X8: remoteTorchscript is not instrumented.  Whatever its arguments, the
    state it starts from and its outcome, it enters no span, exits none and
    sets no key; the spans that are open stay as they are, and the only
    thing that can happen to the current profiling key is what the one
    send does to it. *)
Theorem remoteTorchscript_never_profiles
    fuel dstName qn schema stack timeout async w :
  exists res w' h,
    remote fuel dstName qn schema stack timeout async w = (res, w') /\
    call_history w w' h /\
    (forall span, occurs (isRecordFunctionEnter span) h = false) /\
    (forall span, occurs (isRecordFunctionExit span) h = false) /\
    occurs isSetCurrentKey h = false /\
    activeSpans_ (profiler w') = activeSpans_ (profiler w) /\
    currentKey_ (profiler w') =
      (if occurs isSend h then ambient (currentKey_ (profiler w))
       else currentKey_ (profiler w)).
Proof.
  destruct (findWorker dstName (agent w)) as [dst|] eqn:Hdst.
  - unfold remoteTorchscript. mrun Hdst Hdst.
    destruct (returns schema) as [|r1 [|r2 rs]]; mstep.
    2: destruct (bool_decide (id_ (workerInfo_ (agent w)) ≠ id_ dst));
       mstep; send_cases send dst dec.
    all: give_outcome w; repeat split; reflexivity.
  - unfold remoteTorchscript. mrun Hdst Hdst.
    give_outcome w; repeat split; reflexivity.
Qed.

(** X9: each branch of remoteTorchscript uses its own part of the registry.
    A call to another worker records no owner and no fork of an owner; a
    call to the local worker registers no pending user and confirms none. *)
Theorem remoteTorchscript_branches_keep_apart
    fuel dstName qn schema stack timeout async w dst r :
  findWorker dstName (agent w) = Some dst ->
  returns schema = [r] ->
  exists p w' h,
    remote fuel dstName qn schema stack timeout async w = (Ok p, w') /\
    call_history w w' h /\
    if bool_decide (id_ (workerInfo_ (agent w)) ≠ id_ dst)
    then owners_ (ctx w') = owners_ (ctx w) /\
         forks_ (ctx w') = forks_ (ctx w) /\
         (forall rid, occurs (isAddSelfAsFork rid) h = false) /\
         (forall rid, occurs (isFinishCreatingOwnerRRef rid) h = false)
    else pendingUsers_ (ctx w') = pendingUsers_ (ctx w) /\
         confirmedUsers_ (ctx w') = confirmedUsers_ (ctx w) /\
         (forall fid, occurs (isAddPendingUser fid) h = false) /\
         (forall fid, occurs (isConfirmPendingUser fid) h = false).
Proof.
  intros Hdst Hret.
  unfold remoteTorchscript. mrun Hdst Hret.
  destruct (bool_decide (id_ (workerInfo_ (agent w)) ≠ id_ dst)) eqn:Hloc.
  - (* user branch *)
    mstep. send_cases send dst dec;
      give_result w; cbn; repeat split; reflexivity.
  - (* owner branch *)
    mstep. send_cases send dst dec;
      give_result w; cbn; repeat split; reflexivity.
Qed.


(** X10: the future that rpcTorchscript returns follows the transport
    future, whether it is the typed future itself or, under profiling, the
    future that wraps it.  With the call in flight the returned future is
    pending; when the transport future then fails, the returned future
    fails with the same error, and when it settles with a message that
    decodes, the returned future holds the decoded value and the data
    handles of the transport future.  If a span was entered, it is closed
    by then. *)
Theorem rpcTorchscript_returned_future_follows_transport
    fuel dstName qn schema stack timeout async w dst r :
  findWorker dstName (agent w) = Some dst ->
  returns schema = [r] ->
  send dst (toMsg {| qualifiedName_ := qn;
                     stack_ := stack;
                     isAsyncExecution_ := async |}) = Pending ->
  exists fut w1 h,
    rpc fuel dstName qn schema stack timeout async w = (Ok fut, w1) /\
    call_history w w1 h /\
    exists F,
      sentFutures h = [F] /\
      futureState F w1 = Some Pending /\
      futureState fut w1 = Some Pending /\
      (forall e n,
         exists w2,
           settle dec (S (S (S n))) F (Error e) w1 = (Ok tt, w2) /\
           futureState fut w2 = Some (Settled (Error e)) /\
           (shouldProfile w = true ->
            activeSpans_ (profiler w2) !! nextSpan_ (profiler w) = None)) /\
      (forall m v ptrs n,
         dec m = Ok v ->
         exists w2,
           settle dec (S (S (S n))) F (Value (IVMessage m) ptrs) w1
             = (Ok tt, w2) /\
           futureState fut w2 = Some (Settled (Value v ptrs)) /\
           (shouldProfile w = true ->
            activeSpans_ (profiler w2) !! nextSpan_ (profiler w) = None)).
Proof.
  intros Hdst Hret Hsend. unfold shouldProfile.
  rpc_cases w Hdst Hret; rewrite Hsend; mstep.
  all: give_result w; exists (nextFuture w); cbn;
       unfold futureState; mstep;
       repeat (split; [reflexivity|]).
  all: split; [intros e0 n|intros m0 v0 ptrs0 n Hv0]; mstep;
       rewrite ?Hv0; mstep; eexists; (split; [reflexivity|]); mstep;
       (split; [reflexivity|]);
       intros Hprof; first [discriminate Hprof | reflexivity].
Qed.

(** X11: the callback of rpcTorchscript has no handler around the decoding
    of the answer.  With the call in flight, when the transport future
    settles with a message that does not decode, the exception leaves the
    callback; the typed future is neither completed nor failed, so the
    future that was returned stays pending, and a span that was entered
    stays open. *)
Theorem rpcTorchscript_undecodable_answer_settles_nothing
    fuel dstName qn schema stack timeout async w dst r :
  findWorker dstName (agent w) = Some dst ->
  returns schema = [r] ->
  send dst (toMsg {| qualifiedName_ := qn;
                     stack_ := stack;
                     isAsyncExecution_ := async |}) = Pending ->
  exists fut w1 h,
    rpc fuel dstName qn schema stack timeout async w = (Ok fut, w1) /\
    call_history w w1 h /\
    exists F,
      sentFutures h = [F] /\
      forall m ex ptrs n,
        dec m = Throw ex ->
        exists w2,
          settle dec (S n) F (Value (IVMessage m) ptrs) w1
            = (Throw ex, w2) /\
          futureState F w2 = Some (Settled (Value (IVMessage m) ptrs)) /\
          futureState fut w2 = Some Pending /\
          (shouldProfile w = true ->
           is_Some (activeSpans_ (profiler w2) !! nextSpan_ (profiler w))).
Proof.
  intros Hdst Hret Hsend. unfold shouldProfile.
  rpc_cases w Hdst Hret; rewrite Hsend; mstep.
  all: give_result w; exists (nextFuture w); cbn;
       (split; [reflexivity|]).
  all: intros m0 ex0 ptrs0 n Hex; mstep; rewrite Hex; mstep;
       eexists; (split; [reflexivity|]); unfold futureState; mstep;
       repeat (split; [reflexivity|]);
       intros Hprof; first [discriminate Hprof | eexists; reflexivity].
Qed.


(** X13: when rpcTorchscript profiles a call, the first two things it does
    are to enter a span and to set the current key of the remote profiler,
    both under one key, which is formatted from the qualified name, the
    name of the local worker and the destination name as the caller gave
    it.  Everything else, the resolution of the destination and the send
    included, comes after, so this happens for an unknown destination and
    for any declared arity too; the key is set once, and it is this key
    that a send is handed as its ambient profiling key. *)
Theorem rpcTorchscript_profiling_starts_first
    fuel dstName qn schema stack timeout async w :
  shouldProfile w = true ->
  exists res w' h,
    rpc fuel dstName qn schema stack timeout async w = (res, w') /\
    call_history w w' h /\
    let key := rpcAsyncJitKey qn (name_ (workerInfo_ (agent w))) dstName in
    count isSetCurrentKey h = 1%nat /\
    currentKey_ (profiler w') =
      (if occurs isSend h then ambient (Some key) else Some key) /\
    exists rest,
      h = EvRecordFunctionEnter key (nextSpan_ (profiler w))
          :: EvSetCurrentKey key :: rest.
Proof.
  unfold shouldProfile, currentKeySet. intros Hprof.
  destruct (findWorker dstName (agent w)) as [dst|] eqn:Hdst.
  - rpc_cases w Hdst Hdst; try discriminate Hprof.
    all: destruct (returns schema) as [|r1 [|r2 rs]]; mstep.
    all: try (send_cases send dst dec).
    all: try (destruct fuel; mstep).
    all: give_outcome w; repeat (split; [reflexivity|]);
         eexists; reflexivity.
  - rpc_cases w Hdst Hdst; try discriminate Hprof.
    all: give_outcome w; repeat (split; [reflexivity|]);
         eexists; reflexivity.
Qed.

(** X14: when the profiler is off, or a current key is already set,
    rpcTorchscript does no profiling of its own, whatever the outcome: it
    enters no span, exits none and sets no key, so that a key that was set
    is not overwritten; the spans that are open stay as they are, and the
    only thing that can happen to the current key is what the send does to
    it. *)
Theorem rpcTorchscript_unprofiled_sets_no_key
    fuel dstName qn schema stack timeout async w :
  shouldProfile w = false ->
  exists res w' h,
    rpc fuel dstName qn schema stack timeout async w = (res, w') /\
    call_history w w' h /\
    (forall span, occurs (isRecordFunctionEnter span) h = false) /\
    (forall span, occurs (isRecordFunctionExit span) h = false) /\
    occurs isSetCurrentKey h = false /\
    activeSpans_ (profiler w') = activeSpans_ (profiler w) /\
    currentKey_ (profiler w') =
      (if occurs isSend h then ambient (currentKey_ (profiler w))
       else currentKey_ (profiler w)).
Proof.
  unfold shouldProfile, currentKeySet. intros Hprof.
  destruct (findWorker dstName (agent w)) as [dst|] eqn:Hdst.
  - rpc_cases w Hdst Hdst; try discriminate Hprof.
    all: destruct (returns schema) as [|r1 [|r2 rs]]; mstep.
    all: try (send_cases send dst dec).
    all: try (destruct fuel; mstep).
    all: give_outcome w; cbn; rewrite ?Hkey; repeat split; reflexivity.
  - rpc_cases w Hdst Hdst; try discriminate Hprof.
    all: give_outcome w; cbn; rewrite ?Hkey; repeat split; reflexivity.
Qed.


(** X15: the calls that remoteTorchscript makes, in their order.  To
    another worker: create the User reference, send, register the creation
    future, register the pending user, add the callback.  To the local
    worker: create the Owner reference, register it as its own fork, send,
    register the creation future, add the callback.  Nothing else happens
    in the call, except that the callback's handler runs at once, and once,
    when the transport future has settled by then. *)
Theorem remoteTorchscript_call_sequence
    fuel dstName qn schema stack timeout async w dst r :
  findWorker dstName (agent w) = Some dst ->
  returns schema = [r] ->
  exists p w' h,
    remote fuel dstName qn schema stack timeout async w = (Ok p, w') /\
    call_history w w' h /\
    exists ref F m handled,
      rrefs w' !! p = Some ref /\
      (length handled <= 1)%nat /\
      (futureState F w' = Some Pending <-> handled = []) /\
      if bool_decide (id_ (workerInfo_ (agent w)) ≠ id_ dst)
      then exists fid,
             forkId ref = Some fid /\
             h = [EvCreateUserRRef p (rrefId ref) fid;
                  EvSend dst m true timeout F;
                  EvRegisterOwnerCreationFuture p F;
                  EvAddPendingUser fid p;
                  EvAddCallback F (ConfirmUserCallback
                                     {| wp_target := F |} fid)]
                 ++ handled /\
             Forall (fun e => isConfirmPendingUser fid e = true) handled
      else h = [EvCreateOwnerRRef p (rrefId ref);
                EvAddSelfAsFork (rrefId ref);
                EvSend dst m true timeout F;
                EvRegisterOwnerCreationFuture p F;
                EvAddCallback F (FinishOwnerCallback
                                   {| wp_target := F |} (rrefId ref))]
               ++ handled /\
           Forall (fun e => isFinishCreatingOwnerRRef (rrefId ref) e = true)
                  handled.
Proof.
  intros Hdst Hret.
  unfold remoteTorchscript. mrun Hdst Hret.
  destruct (bool_decide (id_ (workerInfo_ (agent w)) ≠ id_ dst)) eqn:Hloc.
  - (* user branch *)
    mstep. send_cases send dst dec;
      give_result w; cbn; rewrite lookup_insert_eq;
      unfold futureState.
    1: eexists _, (nextFuture w), _, []; mstep;
       repeat split; try reflexivity; try lia; eauto.
    all: eexists _, (nextFuture w), _, [_]; mstep;
         repeat split; try reflexivity; try lia; try discriminate;
         eexists; repeat split; try reflexivity;
         repeat constructor; cbn; decide_true; reflexivity.
  - (* owner branch *)
    mstep. send_cases send dst dec;
      give_result w; cbn; rewrite lookup_insert_eq;
      unfold futureState.
    1: eexists _, (nextFuture w), _, []; mstep;
       repeat split; try reflexivity; try lia; eauto.
    all: eexists _, (nextFuture w), _, [_]; mstep;
         repeat split; try reflexivity; try lia; try discriminate;
         repeat constructor; cbn; decide_true; reflexivity.
Qed.

End Coverage.

(** ** The further properties on the concrete deployment *)

(** X1 at work: worker 0 knows no worker called ghost; the schema given
    has no return value, and it is the unknown worker that is reported. *)
Lemma remoteTorchscript_unknown_destination_witness :
  findWorker "ghost" (agent (Demo.world0 false)) = None /\
  Demo.remoteRef Demo.inFlight "ghost" []
  = (Throw (UnknownWorker "ghost"), Demo.world0 false).
Proof.
  split; [reflexivity|].
  exact (remoteTorchscript_unknown_destination
           Demo.remoteToMessage Demo.deserialize Demo.inFlight Demo.consumed 3
           "ghost" "my_script_add" (Demo.schema []) Demo.args 5%Q false
           (Demo.world0 false) eq_refl).
Defined.

(** X2 at work: a schema with two return values, for the local worker. *)
Lemma remoteTorchscript_bad_arity_no_effect_witness :
  findWorker "worker0" (agent (Demo.world0 false)) = Some Demo.worker0 /\
  length (returns (Demo.schema (Demo.oneReturn ++ Demo.oneReturn)))
    <> 1%nat /\
  Demo.remoteRef Demo.inFlight "worker0" (Demo.oneReturn ++ Demo.oneReturn)
  = (Throw (SchemaMismatch 2), Demo.world0 false).
Proof.
  assert (Hlen : length (returns (Demo.schema
                                    (Demo.oneReturn ++ Demo.oneReturn)))
                 <> 1%nat) by (cbn; lia).
  split; [reflexivity|]. split; [exact Hlen|].
  exact (remoteTorchscript_bad_arity_no_effect
           Demo.remoteToMessage Demo.deserialize Demo.inFlight Demo.consumed 3
           "worker0" "my_script_add"
           (Demo.schema (Demo.oneReturn ++ Demo.oneReturn)) Demo.args 5%Q
           false (Demo.world0 false) Demo.worker0 eq_refl Hlen).
Defined.

(** X3 at work: a profiled callRemote to the unknown worker ghost. *)
Lemma rpcTorchscript_unknown_destination_witness :
  findWorker "ghost" (agent (Demo.world0 true)) = None /\
  exists w' h,
    rpcTorchscript Demo.toMessage Demo.deserialize Demo.inFlight
                   Demo.consumed 3
                   "ghost" "my_script_add" (Demo.schema Demo.oneReturn)
                   Demo.args 5%Q false (Demo.world0 true)
    = (Throw (UnknownWorker "ghost"), w') /\
    call_history (Demo.world0 true) w' h /\
    sentMessages h = [] /\
    futures w' = futures (Demo.world0 true) /\
    count (isRecordFunctionExit 0) h = 1%nat /\
    activeSpans_ (profiler w') !! 0%nat = None /\
    currentKey_ (profiler w')
    = Some "rpc_async_jit#my_script_add(worker0 -> ghost)".
Proof.
  split; [reflexivity|].
  destruct (rpcTorchscript_unknown_destination
              Demo.toMessage Demo.deserialize Demo.inFlight Demo.consumed 3
              "ghost" "my_script_add" (Demo.schema Demo.oneReturn)
              Demo.args 5%Q false (Demo.world0 true) eq_refl)
    as (w' & h & Hrun & Hh & Hsent & Hfut & Hprof).
  change (shouldProfile (Demo.world0 true)) with true in Hprof.
  destruct Hprof as (Hseq & Hspan & Hk).
  exists w', h. repeat split; try assumption.
  rewrite Hseq. reflexivity.
Defined.

(** X4 at work: a profiled callRemote of a function that declares no
    return value. *)
Lemma rpcTorchscript_bad_arity_leaves_call_unobserved_witness :
  findWorker "worker1" (agent (Demo.world0 true)) = Some Demo.worker1 /\
  length (returns (Demo.schema [])) <> 1%nat /\
  shouldProfile (Demo.world0 true) = true /\
  exists w' h F,
    Demo.callRemote Demo.inFlight true [] = (Throw (SchemaMismatch 0), w') /\
    call_history (Demo.world0 true) w' h /\
    sentFutures h = [F] /\
    futureCallbacks F w' = Some [] /\
    count (isRecordFunctionExit 0) h = 1%nat /\
    activeSpans_ (profiler w') !! 0%nat = None.
Proof.
  assert (Hlen : length (returns (Demo.schema [])) <> 1%nat) by (cbn; lia).
  split; [reflexivity|]. split; [exact Hlen|]. split; [reflexivity|].
  destruct (rpcTorchscript_bad_arity_leaves_call_unobserved
              Demo.toMessage Demo.deserialize Demo.inFlight Demo.consumed 3
              "worker1" "my_script_add" (Demo.schema []) Demo.args 5%Q
              false (Demo.world0 true) Demo.worker1 eq_refl Hlen)
    as (w' & h & Hrun & Hh & F & Hsent & Hcb & _ & Hprof).
  destruct (Hprof eq_refl) as (Hcount & _ & Hclosed).
  exists w', h, F. repeat split; assumption.
Defined.

(** X5 at work: a callRemote from worker 0 to itself still goes through
    the transport. *)
Lemma rpcTorchscript_sends_one_message_witness :
  findWorker "worker0" (agent (Demo.world0 false)) = Some Demo.worker0 /\
  exists res w' h F,
    rpcTorchscript Demo.toMessage Demo.deserialize Demo.inFlight Demo.consumed 3
                   "worker0" "my_script_add" (Demo.schema Demo.oneReturn)
                   Demo.args 5%Q true (Demo.world0 false)
    = (res, w') /\
    call_history (Demo.world0 false) w' h /\
    List.filter isSend h =
      [EvSend Demo.worker0
              (Demo.toMessage {| qualifiedName_ := "my_script_add";
                                 stack_ := Demo.args;
                                 isAsyncExecution_ := true |})
              true 5%Q F].
Proof.
  split; [reflexivity|].
  destruct (rpcTorchscript_sends_one_message
              Demo.toMessage Demo.deserialize Demo.inFlight Demo.consumed 3
              "worker0" "my_script_add" (Demo.schema Demo.oneReturn)
              Demo.args 5%Q true (Demo.world0 false) Demo.worker0 eq_refl)
    as (res & w' & h & Hrun & Hh & F & Hsend).
  exists res, w', h, F. repeat split; assumption.
Defined.

(** X6 at work: a remoteRef from worker 0 to worker 1. *)
Lemma remoteTorchscript_user_descriptor_ids_witness :
  findWorker "worker1" (agent (Demo.world0 false)) = Some Demo.worker1 /\
  returns (Demo.schema Demo.oneReturn) = Demo.oneReturn /\
  id_ (workerInfo_ (agent (Demo.world0 false))) <> id_ Demo.worker1 /\
  exists p w' h ref fid F,
    Demo.remoteRef Demo.inFlight "worker1" Demo.oneReturn = (Ok p, w') /\
    call_history (Demo.world0 false) w' h /\
    rrefs w' !! p = Some ref /\
    forkId ref = Some fid /\
    creationFuture ref = Some F /\
    List.filter isSend h =
      [EvSend Demo.worker1
              (Demo.remoteToMessage
                 {| call_ := {| qualifiedName_ := "my_script_add";
                                stack_ := Demo.args;
                                isAsyncExecution_ := false |};
                    retRRefId_ := rrefId ref;
                    retForkId_ := fid |})
              true 5%Q F].
Proof.
  split; [reflexivity|]. split; [reflexivity|].
  assert (Hne : id_ (workerInfo_ (agent (Demo.world0 false)))
                <> id_ Demo.worker1) by (cbn; lia).
  split; [exact Hne|].
  destruct (remoteTorchscript_user_descriptor_ids
              Demo.remoteToMessage Demo.deserialize Demo.inFlight
              Demo.consumed 3
              "worker1" "my_script_add" (Demo.schema Demo.oneReturn)
              Demo.args 5%Q false (Demo.world0 false) Demo.worker1 _
              eq_refl eq_refl Hne)
    as (p & w' & h & Hrun & Hh & ref & fid & F & Hp & Hf & Hc & Hsend).
  exists p, w', h, ref, fid, F. repeat split; assumption.
Defined.

(** X9 at work: a remoteRef to worker 1 whose answer is already there; the
    fork has been confirmed, and no owner and no fork of an owner has been
    recorded. *)
Lemma remoteTorchscript_branches_keep_apart_witness :
  findWorker "worker1" (agent (Demo.world0 false)) = Some Demo.worker1 /\
  returns (Demo.schema Demo.oneReturn) = Demo.oneReturn /\
  exists p w' h,
    Demo.remoteRef Demo.answered "worker1" Demo.oneReturn = (Ok p, w') /\
    call_history (Demo.world0 false) w' h /\
    owners_ (ctx w') = ∅ /\
    forks_ (ctx w') = ∅.
Proof.
  split; [reflexivity|]. split; [reflexivity|].
  destruct (remoteTorchscript_branches_keep_apart
              Demo.remoteToMessage Demo.deserialize Demo.answered
              Demo.consumed 3
              "worker1" "my_script_add" (Demo.schema Demo.oneReturn)
              Demo.args 5%Q false (Demo.world0 false) Demo.worker1 _
              eq_refl eq_refl)
    as (p & w' & h & Hrun & Hh & Hb).
  vm_compute bool_decide in Hb. destruct Hb as (Ho & Hf & _).
  exists p, w', h. repeat split; assumption.
Defined.

(** X10 at work: a profiled callRemote to worker 1; the transport then
    times out. *)
Lemma rpcTorchscript_returned_future_follows_transport_witness :
  findWorker "worker1" (agent (Demo.world0 true)) = Some Demo.worker1 /\
  returns (Demo.schema Demo.oneReturn) = Demo.oneReturn /\
  Demo.inFlight Demo.worker1
    (Demo.toMessage {| qualifiedName_ := "my_script_add";
                       stack_ := Demo.args;
                       isAsyncExecution_ := false |}) = Pending /\
  exists fut w1 F w2,
    Demo.callRemote Demo.inFlight true Demo.oneReturn = (Ok fut, w1) /\
    futureState fut w1 = Some Pending /\
    settle Demo.deserialize 3 F (Error RpcTimeout) w1 = (Ok tt, w2) /\
    futureState fut w2 = Some (Settled (Error RpcTimeout)) /\
    activeSpans_ (profiler w2) !! 0%nat = None.
Proof.
  split; [reflexivity|]. split; [reflexivity|]. split; [reflexivity|].
  destruct (rpcTorchscript_returned_future_follows_transport
              Demo.toMessage Demo.deserialize Demo.inFlight Demo.consumed 3
              "worker1" "my_script_add" (Demo.schema Demo.oneReturn)
              Demo.args 5%Q false (Demo.world0 true) Demo.worker1 _
              eq_refl eq_refl eq_refl)
    as (fut & w1 & h & Hrun & Hh & F & _ & _ & Hpend & Herr & _).
  destruct (Herr RpcTimeout 0%nat) as (w2 & Hsettle & Hstate & Hspan).
  exists fut, w1, F, w2. repeat split; try assumption.
  exact (Hspan eq_refl).
Defined.

(** X11 at work: the answer to a callRemote is a message of type
    [EXCEPTION], which the toy decoder refuses. *)
Lemma rpcTorchscript_undecodable_answer_settles_nothing_witness :
  findWorker "worker1" (agent (Demo.world0 false)) = Some Demo.worker1 /\
  returns (Demo.schema Demo.oneReturn) = Demo.oneReturn /\
  Demo.inFlight Demo.worker1
    (Demo.toMessage {| qualifiedName_ := "my_script_add";
                       stack_ := Demo.args;
                       isAsyncExecution_ := false |}) = Pending /\
  let bad := {| payload_ := []; tensors_ := []; type_ := EXCEPTION |} in
  Demo.deserialize bad = Throw (DecodeError "unsupported response type") /\
  exists fut w1 F w2,
    Demo.callRemote Demo.inFlight false Demo.oneReturn = (Ok fut, w1) /\
    settle Demo.deserialize 1 F (Value (IVMessage bad) []) w1
      = (Throw (DecodeError "unsupported response type"), w2) /\
    futureState fut w2 = Some Pending.
Proof.
  split; [reflexivity|]. split; [reflexivity|]. split; [reflexivity|].
  split; [reflexivity|].
  destruct (rpcTorchscript_undecodable_answer_settles_nothing
              Demo.toMessage Demo.deserialize Demo.inFlight Demo.consumed 3
              "worker1" "my_script_add" (Demo.schema Demo.oneReturn)
              Demo.args 5%Q false (Demo.world0 false) Demo.worker1 _
              eq_refl eq_refl eq_refl)
    as (fut & w1 & h & Hrun & Hh & F & _ & Hbad).
  destruct (Hbad {| payload_ := []; tensors_ := []; type_ := EXCEPTION |}
                 (DecodeError "unsupported response type") [] 0%nat eq_refl)
    as (w2 & Hsettle & _ & Hstate & _).
  exists fut, w1, F, w2. repeat split; assumption.
Defined.


(** X13 at work: a profiled callRemote to worker 1: the transport is
    handed the key, which names both workers, and consumes it. *)
Lemma rpcTorchscript_profiling_starts_first_witness :
  shouldProfile (Demo.world0 true) = true /\
  exists res w' h rest,
    Demo.callRemote Demo.inFlight true Demo.oneReturn = (res, w') /\
    call_history (Demo.world0 true) w' h /\
    count isSetCurrentKey h = 1%nat /\
    h = EvRecordFunctionEnter
          "rpc_async_jit#my_script_add(worker0 -> worker1)" 0
        :: EvSetCurrentKey "rpc_async_jit#my_script_add(worker0 -> worker1)"
        :: rest.
Proof.
  split; [reflexivity|].
  destruct (rpcTorchscript_profiling_starts_first
              Demo.toMessage Demo.deserialize Demo.inFlight Demo.consumed 3
              "worker1" "my_script_add" (Demo.schema Demo.oneReturn)
              Demo.args 5%Q false (Demo.world0 true) eq_refl)
    as (res & w' & h & Hrun & Hh & Hcount & _ & rest & Hhead).
  exists res, w', h, rest. repeat split; assumption.
Defined.

(** X14 at work: the profiler is on and a key, set by an enclosing call,
    is in place; the call enters no span and sets no key. *)
Lemma rpcTorchscript_unprofiled_sets_no_key_witness :
  let w := set_profiler {| profilerEnabled_ := true;
                           currentKey_ := Some "outer";
                           activeSpans_ := ∅;
                           nextSpan_ := 0 |} (Demo.world0 true) in
  shouldProfile w = false /\
  exists res w' h,
    rpcTorchscript Demo.toMessage Demo.deserialize Demo.inFlight
                   Demo.consumed 3
                   "worker1" "my_script_add" (Demo.schema Demo.oneReturn)
                   Demo.args 5%Q false w
    = (res, w') /\
    call_history w w' h /\
    occurs isSetCurrentKey h = false /\
    (forall span, occurs (isRecordFunctionEnter span) h = false) /\
    activeSpans_ (profiler w') = ∅.
Proof.
  intros w. split; [reflexivity|].
  destruct (rpcTorchscript_unprofiled_sets_no_key
              Demo.toMessage Demo.deserialize Demo.inFlight Demo.consumed 3
              "worker1" "my_script_add" (Demo.schema Demo.oneReturn)
              Demo.args 5%Q false w eq_refl)
    as (res & w' & h & Hrun & Hh & Henter & _ & Hset & Hspans & _).
  exists res, w', h. repeat split; assumption.
Defined.

(** X15 at work: a remoteRef from worker 0 to worker 1, in flight. *)
Lemma remoteTorchscript_call_sequence_witness :
  findWorker "worker1" (agent (Demo.world0 false)) = Some Demo.worker1 /\
  returns (Demo.schema Demo.oneReturn) = Demo.oneReturn /\
  exists p w' h ref F m handled fid,
    Demo.remoteRef Demo.inFlight "worker1" Demo.oneReturn = (Ok p, w') /\
    call_history (Demo.world0 false) w' h /\
    rrefs w' !! p = Some ref /\
    forkId ref = Some fid /\
    h = [EvCreateUserRRef p (rrefId ref) fid;
         EvSend Demo.worker1 m true 5%Q F;
         EvRegisterOwnerCreationFuture p F;
         EvAddPendingUser fid p;
         EvAddCallback F (ConfirmUserCallback {| wp_target := F |} fid)]
        ++ handled.
Proof.
  split; [reflexivity|]. split; [reflexivity|].
  destruct (remoteTorchscript_call_sequence
              Demo.remoteToMessage Demo.deserialize Demo.inFlight
              Demo.consumed 3
              "worker1" "my_script_add" (Demo.schema Demo.oneReturn)
              Demo.args 5%Q false (Demo.world0 false) Demo.worker1 _
              eq_refl eq_refl)
    as (p & w' & h & Hrun & Hh & ref & F & m & handled & Hp & _ & _ & Hb).
  vm_compute bool_decide in Hb. destruct Hb as (fid & Hf & Hseq & _).
  exists p, w', h, ref, F, m, handled, fid. repeat split; assumption.
Defined.
